(** * forex-news-bot: the cache, the event filter and the trigger window

    A shallow embedding of [bot.py]: the module-level cache
    ([LAST_FETCH], [CACHED_EVENTS]), the accessor [get_red_news], the
    scheduled task [check_news] and the message handler [on_message].

    What the environment hands to the program is an argument of the
    embedded function (a clock reading, the outcome of the HTTP request,
    the channel lookup); what the program does to the environment is
    recorded in a trace of effects (lines printed, requests issued,
    messages sent).  Python exceptions are the [Raise] outcome. *)

From Stdlib Require Import ZArith List String Ascii Bool Lia.
From Stdlib Require Import Permutation Sorted.
Import ListNotations.

Open Scope Z_scope.

(** ** Python strings *)

Module PyStr.

Definition nl : string := String (ascii_of_nat 10) EmptyString.

(** [c.lower()] on one character of the ASCII range; other bytes are
    left as they are.  For the test of line 175 this is what Python
    does: no character outside the ASCII range lower-cases to one of the
    characters of [!nextnews]. *)
Definition lower_char (c : ascii) : ascii :=
  let n := nat_of_ascii c in
  if (Nat.leb 65 n && Nat.leb n 90)%bool then ascii_of_nat (n + 32) else c.

(** [s.lower()] *)
Fixpoint lower (s : string) : string :=
  match s with
  | EmptyString => EmptyString
  | String c rest => String (lower_char c) (lower rest)
  end.

(** [s.startswith(prefix)] *)
Fixpoint startswith (s prefix : string) {struct prefix} : bool :=
  match prefix, s with
  | EmptyString, _ => true
  | String _ _, EmptyString => false
  | String p prefix', String c s' => (Ascii.eqb c p && startswith s' prefix')%bool
  end.

(** [needle in hay] *)
Fixpoint str_in (needle hay : string) : bool :=
  match hay with
  | EmptyString => startswith hay needle
  | String _ rest => (startswith hay needle || str_in needle rest)%bool
  end.

(** ["\n".join(lines)] *)
Fixpoint join (sep : string) (lines : list string) : string :=
  match lines with
  | [] => EmptyString
  | [l] => l
  | l :: rest => (l ++ sep ++ join sep rest)%string
  end.

End PyStr.

(** ** Python exceptions and results *)

Inductive exception : Type :=
| RequestException (msg : string)   (* requests.get: connection error, timeout *)
| HTTPError (status_code : Z)       (* response.raise_for_status() *)
| ValueError (msg : string)         (* Calendar.from_ical on a malformed document *)
| AttributeError (msg : string)     (* attribute access on None *)
| TypeError (msg : string)          (* offset-naive against offset-aware datetimes *)
| OverflowError (msg : string).     (* a datetime outside datetime.min .. datetime.max *)

Inductive result (A : Type) : Type :=
| Return (a : A)
| Raise (e : exception).

Arguments Return {A} a.
Arguments Raise {A} e.

Definition rbind {A B : Type} (r : result A) (k : A -> result B) : result B :=
  match r with
  | Return a => k a
  | Raise e => Raise e
  end.

(** ** datetime, date and timedelta *)

Module PyTime.

(** A [timedelta] is a number of microseconds. *)
Definition timedelta : Type := Z.

Definition timedelta_minutes (minutes : Z) : timedelta := minutes * 60 * 1000000.

(** [td.seconds]: the seconds field of the normalised timedelta, in
    [0, 86400). *)
Definition seconds (td : timedelta) : Z := (td mod 86400000000) / 1000000.

(** A [date] is a day number, counted from 0001-01-01. *)
Definition date : Type := Z.

(** A [tzinfo] object: [pytz.UTC], or any other object, known by its
    identity and by the UTC offset, in microseconds, that it gives the
    datetime it is attached to (one object, a zone with daylight saving
    time, can give different datetimes different offsets). *)
Inductive tzinfo_object : Type :=
| UTC
| Zone (zone_id : Z) (zone_offset : Z).

(** [tz.utcoffset(dt)] for the datetime [tz] is attached to. *)
Definition utcoffset (tz : tzinfo_object) : Z :=
  match tz with
  | UTC => 0
  | Zone _ zone_offset => zone_offset
  end.

(** [a is b] *)
Definition same_object (a b : tzinfo_object) : bool :=
  match a, b with
  | UTC, UTC => true
  | Zone i _, Zone j _ => i =? j
  | _, _ => false
  end.

(** A [datetime]: [wall] is the reading of its calendar and clock
    fields, in microseconds from 0001-01-01 00:00 ([datetime.min]);
    [tzinfo] is [None] for a naive value. *)
Record datetime : Type := mk_datetime { wall : Z; tzinfo : option tzinfo_object }.

(** [datetime.max], 9999-12-31 23:59:59.999999. *)
Definition DATETIME_MAX : Z := 3652059 * 86400000000 - 1.

(** [datetime.now(tz)] when the clock reads [now]. *)
Definition datetime_now (tz : tzinfo_object) (now : Z) : datetime :=
  {| wall := now + utcoffset tz; tzinfo := Some tz |}.

(** [dt.replace(tzinfo=tz)] *)
Definition replace_tzinfo (dt : datetime) (tz : tzinfo_object) : datetime :=
  {| wall := wall dt; tzinfo := Some tz |}.

(** [datetime.combine(d, datetime.min.time())] *)
Definition combine_min_time (d : date) : datetime :=
  {| wall := d * 86400000000; tzinfo := None |}.

Definition naive_aware_msg : string :=
  "can't compare offset-naive and offset-aware datetimes"%string.

Definition naive_aware_sub_msg : string :=
  "can't subtract offset-naive and offset-aware datetimes"%string.

(** [a - b]: between two values of one tzinfo object, and between naive
    values, the difference of the fields; between aware values of two
    objects, the difference of the instants. *)
Definition dt_sub (a b : datetime) : result timedelta :=
  match tzinfo a, tzinfo b with
  | Some ta, Some tb =>
      if same_object ta tb then Return (wall a - wall b)
      else Return ((wall a - utcoffset ta) - (wall b - utcoffset tb))
  | None, None => Return (wall a - wall b)
  | _, _ => Raise (TypeError naive_aware_sub_msg)
  end.

(** [a < b], with the same cases. *)
Definition dt_lt (a b : datetime) : result bool :=
  match tzinfo a, tzinfo b with
  | Some ta, Some tb =>
      if same_object ta tb then Return (wall a <? wall b)
      else Return (wall a - utcoffset ta <? wall b - utcoffset tb)
  | None, None => Return (wall a <? wall b)
  | _, _ => Raise (TypeError naive_aware_msg)
  end.

(** [a > b] *)
Definition dt_gt (a b : datetime) : result bool := dt_lt b a.

(** The instant an aware datetime denotes, in microseconds of UTC. *)
Definition instant (dt : datetime) : Z :=
  match tzinfo dt with
  | Some tz => wall dt - utcoffset tz
  | None => wall dt
  end.

Definition aware (dt : datetime) : Prop := tzinfo dt <> None.

Definition awareb (dt : datetime) : bool :=
  match tzinfo dt with Some _ => true | None => false end.

End PyTime.

Import PyTime.

(** ** The calendar document *)

(** The value of a DTSTART property, [component.get("DTSTART").dt], when
    the record has one DTSTART line that holds a datetime or a date.  A
    record whose DTSTART is repeated, or holds a duration, a time or a
    period, is outside this model: on a marked VEVENT lines 102 and 109
    raise on it. *)
Inductive dt_value : Type :=
| DtDatetime (dt : datetime)
| DtDate (d : date).

(** A component of the parsed calendar with the properties the bot reads. *)
#[warnings="-register-all"]
Inductive component : Type :=
  Component {
      name : string;
      DESCRIPTION : option string;
      SUMMARY : option string;
      DTSTART : option dt_value;
      subcomponents : list component }.

(** [cal.walk()]: the component, then its subcomponents, depth first. *)
Fixpoint walk (c : component) : list component :=
  c :: flat_map walk (subcomponents c).

(** ** The HTTP request *)

Inductive http_outcome : Type :=
| RequestRaised (e : exception)
| Response (status_code : Z) (text : string).

(** [response.raise_for_status()] raises on the 4xx and 5xx codes. *)
Definition raise_for_status (status_code : Z) : bool :=
  ((400 <=? status_code) && (status_code <? 600))%bool.

(** ** Configuration *)

Definition CHANNEL_ID : Z := 1441268899369713684.
Definition FOREX_ICS : string :=
  "https://nfs.faireconomy.media/ff_calendar_thisweek.ics"%string.
Definition ROLE_PING : string := "<@1441268539158822935>"%string.
Definition CACHE_TTL_MINUTES : Z := 15.

(** [DISPLAY_TZ = pytz.timezone("Asia/Kolkata")]: the offset of the zone
    at the far end of the range of datetime, +05:30. *)
Definition DISPLAY_TZ_OFFSET : timedelta := (5 * 60 + 30) * 60 * 1000000.

(** What datetime arithmetic raises outside [datetime.min .. datetime.max]. *)
Definition date_out_of_range : exception := OverflowError "date value out of range".

(** Whether [dt.astimezone(DISPLAY_TZ)] raises for an aware [dt]: the
    call first takes [dt] to UTC, which fails before [datetime.min], and
    then adds the offset of the zone, which fails after [datetime.max]
    (there the offset is +05:30). *)
Definition astimezone_display_overflows (dt : datetime) : bool :=
  (instant dt <? 0) || (DATETIME_MAX <? instant dt + DISPLAY_TZ_OFFSET).

(** ** Module state, effects and the monad of the bot *)

(** A cached event: [(event_time_utc, summary)]. *)
Definition event : Type := (datetime * string)%type.

(** The two module-level variables of the cache. *)
Record globals : Type :=
  mk_globals { LAST_FETCH : option datetime; CACHED_EVENTS : list event }.

Definition initial_globals : globals :=
  {| LAST_FETCH := None; CACHED_EVENTS := [] |}.

(** One constructor per [print] call of the source, with the values it
    interpolates. *)
Inductive log_line : Type :=
| DebugUsingCached (n_events : nat) (minutes_ago : Z)
| DebugRefreshing
| Warn429
| ErrorFetch (e : exception)
| InfoFallback
| ErrorParse (e : exception)
| DebugFetched (n_events : nat)
| DebugEvent (i : nat) (ev_summary : string) (ev_time : datetime)
| WarnChannelNotFound
| InfoAlertSent (summary : string) (time_str : string).

Inductive effect : Type :=
| Print (line : log_line)
| HttpGet (url : string) (timeout : Z) (user_agent : string)
| ChannelSend (channel : Z) (content : string).

(** A computation reads and writes the globals, appends to the trace and
    returns or raises. *)
Definition M (A : Type) : Type := globals -> result A * globals * list effect.

Definition ret {A : Type} (a : A) : M A := fun g => (Return a, g, []).

Definition raise {A : Type} (e : exception) : M A := fun g => (Raise e, g, []).

Definition bind {A B : Type} (m : M A) (k : A -> M B) : M B :=
  fun g =>
    match m g with
    | (Return a, g1, t1) =>
        match k a g1 with
        | (r, g2, t2) => (r, g2, t1 ++ t2)
        end
    | (Raise e, g1, t1) => (Raise e, g1, t1)
    end.

Definition lift {A : Type} (r : result A) : M A := fun g => (r, g, []).

Definition emit (ef : effect) : M unit := fun g => (Return tt, g, [ef]).

Definition print (line : log_line) : M unit := emit (Print line).

Definition get_globals : M globals := fun g => (Return g, g, []).

Definition put_globals (g' : globals) : M unit := fun _ => (Return tt, g', []).

Declare Scope bot_scope.
Delimit Scope bot_scope with bot.

Notation "x <- m ;; k" := (bind m (fun x => k))
  (at level 100, m at next level, right associativity) : bot_scope.
Notation "m ;;; k" := (bind m (fun _ => k))
  (at level 100, right associativity) : bot_scope.

Open Scope bot_scope.

(** [for x in xs: body(x)] *)
Fixpoint for_each {A : Type} (xs : list A) (body : A -> M unit) : M unit :=
  match xs with
  | [] => ret tt
  | x :: rest => body x ;;; for_each rest body
  end.

(** [enumerate(xs)], counting from [i]. *)
Fixpoint enumerate {A : Type} (i : nat) (xs : list A) : list (nat * A) :=
  match xs with
  | [] => []
  | x :: rest => (i, x) :: enumerate (S i) rest
  end.

(** The outcome, the globals and the trace of a run. *)
Definition outcome {A : Type} (r : result A * globals * list effect) : result A :=
  fst (fst r).
Definition globals_after {A : Type} (r : result A * globals * list effect) : globals :=
  snd (fst r).
Definition trace {A : Type} (r : result A * globals * list effect) : list effect :=
  snd r.

(** ** The event filter and normaliser (lines 88 to 112) *)

Definition MARKER_IMPACT_HIGH : string := "Impact: High"%string.
Definition MARKER_HIGH_IMPACT_EXPECTED : string := "High Impact Expected"%string.

(** [str(component.get("DESCRIPTION", ""))] *)
Definition description_of (c : component) : string :=
  match DESCRIPTION c with Some d => d | None => EmptyString end.

(** [str(component.get("SUMMARY", "Unknown event"))] *)
Definition summary_of (c : component) : string :=
  match SUMMARY c with Some s => s | None => "Unknown event"%string end.

(** The test of line 99: neither marker occurs in the description. *)
Definition lacks_markers (description : string) : bool :=
  negb (PyStr.str_in MARKER_IMPACT_HIGH description)
  && negb (PyStr.str_in MARKER_HIGH_IMPACT_EXPECTED description).

(** Lines 104 to 109. *)
Definition event_time_of (start : dt_value) : datetime :=
  match start with
  | DtDatetime dt =>
      match tzinfo dt with
      | None => replace_tzinfo dt UTC
      | Some _ => dt
      end
  | DtDate d => replace_tzinfo (combine_min_time d) UTC
  end.

(** What [component.get("DTSTART").dt] raises when the property is absent. *)
Definition none_has_no_dt : exception :=
  AttributeError "'NoneType' object has no attribute 'dt'".

(** One turn of the loop of line 90 on the local list [events]. *)
Definition normalize_step (now_utc : datetime) (events : list event)
    (c : component) : result (list event) :=
  if negb (String.eqb (name c) "VEVENT") then Return events
  else
    let description := description_of c in
    let summary := summary_of c in
    if lacks_markers description then Return events
    else
      match DTSTART c with
      | None => Raise none_has_no_dt
      | Some start =>
          let event_time := event_time_of start in
          rbind (dt_gt event_time now_utc) (fun later =>
            if later then Return (events ++ [(event_time, summary)])
            else Return events)
      end.

(** The loop of line 90 over the walked components. *)
Fixpoint normalize_loop (now_utc : datetime) (components : list component)
    (events : list event) : result (list event) :=
  match components with
  | [] => Return events
  | c :: rest =>
      rbind (normalize_step now_utc events c) (normalize_loop now_utc rest)
  end.

(** [normalize(document)] at the instant [now_utc]. *)
Definition normalize (now_utc : datetime) (cal : component) : result (list event) :=
  normalize_loop now_utc (walk cal) [].

(** ** The sort of the query (line 183) *)

(** [sorted] is stable and compares keys with [<]: [e] goes in front of
    the first element of the sorted rest whose key is not below its own.
    Where [<] orders the keys consistently (aware datetimes of which no
    two share a tzinfo object with different offsets) every stable sort
    gives this list; two keys are always ordered as [<] orders them. *)
Fixpoint insert_by_time (e : event) (sorted_rest : list event) : result (list event) :=
  match sorted_rest with
  | [] => Return [e]
  | y :: ys =>
      rbind (dt_lt (fst y) (fst e)) (fun before =>
        if before : bool
        then rbind (insert_by_time e ys) (fun ys' => Return (y :: ys'))
        else Return (e :: y :: ys))
  end.

(** [sorted(events, key=lambda e: e[0])] *)
Fixpoint sorted_by_time (events : list event) : result (list event) :=
  match events with
  | [] => Return []
  | e :: rest => rbind (sorted_by_time rest) (insert_by_time e)
  end.

(** [sorted(events, key=lambda e: e[0])[:3]] *)
Definition next_events (events : list event) : result (list event) :=
  rbind (sorted_by_time events) (fun in_order => Return (firstn 3 in_order)).

(** A received chat message. *)
Record message : Type :=
  mk_message { author : Z; channel_id : Z; content : string }.

(** ** The bot *)

Section Bot.

(** [Calendar.from_ical], the parser of the icalendar library. *)
Variable from_ical : string -> exception + component.

(** [dt.astimezone(DISPLAY_TZ).strftime("%Y-%m-%d %H:%M %Z")], the text
    it gives when the conversion does not raise. *)
Variable strftime_display : datetime -> string.

(** The two [except] handlers of [get_red_news] (lines 71 to 77 and 81
    to 86) after their first [print]. *)
Definition fall_back : M (list event) :=
  g <- get_globals ;;
  match CACHED_EVENTS g with
  | _ :: _ => print InfoFallback ;;; ret (CACHED_EVENTS g)
  | [] => ret []
  end.

(** Lines 56 to 123 of [get_red_news]: the refresh, when
    [requests.get] ends as [net]. *)
Definition refresh (now_utc : datetime) (net : http_outcome) : M (list event) :=
  print DebugRefreshing ;;;
  emit (HttpGet FOREX_ICS 10 "ForexNewsBot/1.0") ;;;
  match net with
  | RequestRaised e => print (ErrorFetch e) ;;; fall_back
  | Response status_code text =>
      if status_code =? 429 then
        print Warn429 ;;;
        g <- get_globals ;;
        ret (CACHED_EVENTS g)
      else if raise_for_status status_code then
        print (ErrorFetch (HTTPError status_code)) ;;; fall_back
      else
        match from_ical text with
        | inl e => print (ErrorParse e) ;;; fall_back
        | inr cal =>
            events <- lift (normalize now_utc cal) ;;
            put_globals {| LAST_FETCH := Some now_utc; CACHED_EVENTS := events |} ;;;
            print (DebugFetched (List.length events)) ;;;
            for_each (enumerate 0 (firstn 5 events))
              (fun '(i, (ev_time, ev_summary)) =>
                 if astimezone_display_overflows ev_time
                 then raise date_out_of_range
                 else print (DebugEvent (i + 1) ev_summary ev_time)) ;;;
            ret events
        end
  end.

(** [get_red_news()], when [datetime.now(pytz.UTC)] reads [now] and
    [requests.get], if it is called, ends as [net]. *)
Definition get_red_news (now : Z) (net : http_outcome) : M (list event) :=
  let now_utc := datetime_now UTC now in
  g <- get_globals ;;
  match LAST_FETCH g with
  | None => refresh now_utc net
  | Some last_fetch =>
      age <- lift (dt_sub now_utc last_fetch) ;;
      if age <? timedelta_minutes CACHE_TTL_MINUTES then
        age_printed <- lift (dt_sub now_utc last_fetch) ;;
        print (DebugUsingCached (List.length (CACHED_EVENTS g))
                 (seconds age_printed / 60)) ;;;
        ret (CACHED_EVENTS g)
      else refresh now_utc net
  end.

(** The text of the alert of lines 148 to 158. *)
Definition alert_message (summary time_str : string) : string :=
  (ROLE_PING ++ PyStr.nl
   ++ "⚠️ **High-Impact News Incoming** ⚠️" ++ PyStr.nl ++ PyStr.nl
   ++ "The market is about to heat up. Stay sharp." ++ PyStr.nl ++ PyStr.nl
   ++ "📌 **Event:** `" ++ summary ++ "`" ++ PyStr.nl
   ++ "⏰ **Release Time:** `" ++ time_str ++ "`" ++ PyStr.nl
   ++ "🕒 **Alert:** 10 minutes before" ++ PyStr.nl ++ PyStr.nl
   ++ "📉 Volatility spike likely." ++ PyStr.nl
   ++ "📊 Manage your risk. Size correctly." ++ PyStr.nl
   ++ "💼 Trade like you’re managing prop capital.")%string.

(** The test of line 144 on [diff]. *)
Definition in_alert_window (diff : timedelta) : bool :=
  (timedelta_minutes 9 <? diff) && (diff <=? timedelta_minutes 10).

(** The body of the loop of line 140.  The conversion of line 145 is
    taken to succeed: it is reached for an event at most ten minutes after
    the clock reading only, and fails only for an event in the last five
    and a half hours of the year 9999. *)
Definition check_event (channel : Z) (now_utc : datetime) (ev : event) : M unit :=
  let '(event_time_utc, summary) := ev in
  diff <- lift (dt_sub event_time_utc now_utc) ;;
  if in_alert_window diff then
    let time_str := strftime_display event_time_utc in
    emit (ChannelSend channel (alert_message summary time_str)) ;;;
    print (InfoAlertSent summary time_str)
  else ret tt.

(** One tick of [check_news]: [channel] is what
    [client.get_channel(CHANNEL_ID)] returns, [now] the clock reading of
    line 137, [now_cache] the later one inside [get_red_news]. *)
Definition check_news (channel : option Z) (now now_cache : Z)
    (net : http_outcome) : M unit :=
  match channel with
  | None => print WarnChannelNotFound
  | Some ch =>
      let now_utc := datetime_now UTC now in
      events <- get_red_news now_cache net ;;
      for_each events (check_event ch now_utc)
  end.

(** One line of the reply (line 189). *)
Definition reply_line (ev : event) : string :=
  let '(event_time_utc, summary) := ev in
  let time_str := strftime_display event_time_utc in
  ("• **" ++ summary ++ "** at `" ++ time_str ++ "`")%string.

(** The loop of lines 185 to 189: the lines of the reply, or the
    exception of the first conversion that fails. *)
Fixpoint reply_lines (events : list event) : result (list string) :=
  match events with
  | [] => Return []
  | ev :: rest =>
      if astimezone_display_overflows (fst ev) then Raise date_out_of_range
      else rbind (reply_lines rest) (fun lines => Return (reply_line ev :: lines))
  end.

(** The reply of lines 191 to 195 around its lines. *)
Definition reply_of_lines (lines : list string) : string :=
  ("📅 **Next high-impact (red folder) events:**" ++ PyStr.nl
   ++ PyStr.join PyStr.nl lines
   ++ PyStr.nl ++ PyStr.nl
   ++ "Stay prepared. News doesn’t care about your stop loss.")%string.

(** The reply that shows [events]. *)
Definition reply_message (events : list event) : string :=
  reply_of_lines (map reply_line events).

Definition no_news_message : string :=
  "No upcoming high-impact news at the moment."%string.

(** Lines 176 to 196: the answer to the command. *)
Definition answer_nextnews (msg : message) (now_cache : Z)
    (net : http_outcome) : M unit :=
  events <- get_red_news now_cache net ;;
  match events with
  | [] => emit (ChannelSend (channel_id msg) no_news_message)
  | _ :: _ =>
      shown <- lift (next_events events) ;;
      lines <- lift (reply_lines shown) ;;
      emit (ChannelSend (channel_id msg) (reply_of_lines lines))
  end.

(** [on_message(message)], with [client_user] the bot's own user. *)
Definition on_message (client_user : Z) (msg : message) (now_cache : Z)
    (net : http_outcome) : M unit :=
  if author msg =? client_user then ret tt
  else if negb (channel_id msg =? CHANNEL_ID) then ret tt
  else if PyStr.startswith (PyStr.lower (content msg)) "!nextnews" then
    answer_nextnews msg now_cache net
  else ret tt.

End Bot.

(** ** Vocabulary of the statements *)

(** A component that passes the tests of lines 91 and 99. *)
Definition qualifies (c : component) : bool :=
  String.eqb (name c) "VEVENT" && negb (lacks_markers (description_of c)).

Definition missing_dtstart (c : component) : bool :=
  qualifies c && match DTSTART c with None => true | Some _ => false end.

(** What one component adds to the event list at the instant [now]. *)
Definition contribution (now : Z) (c : component) : list event :=
  if qualifies c then
    match DTSTART c with
    | Some start =>
        if now <? instant (event_time_of start)
        then [(event_time_of start, summary_of c)]
        else []
    | None => []
    end
  else [].

(** The globals the program can reach hold aware datetimes only. *)
Definition globals_ok (g : globals) : Prop :=
  (forall last_fetch, LAST_FETCH g = Some last_fetch -> aware last_fetch)
  /\ Forall (fun ev : event => aware (fst ev)) (CACHED_EVENTS g).

Definition is_http_get (ef : effect) : bool :=
  match ef with HttpGet _ _ _ => true | _ => false end.

(** The requests a trace issued. *)
Definition http_requests (t : list effect) : list effect := filter is_http_get t.

(** The messages a trace sent, with their channel. *)
Fixpoint sends (t : list effect) : list (Z * string) :=
  match t with
  | [] => []
  | ChannelSend channel content_sent :: rest => (channel, content_sent) :: sends rest
  | _ :: rest => sends rest
  end.

Definition the_request : effect := HttpGet FOREX_ICS 10 "ForexNewsBot/1.0".

(** A refresh that fails: the request raised, the server answered 429 or
    an error status, or the body does not parse. *)
Definition failed_refresh (from_ical : string -> exception + component)
    (net : http_outcome) : bool :=
  match net with
  | RequestRaised _ => true
  | Response status_code text =>
      (status_code =? 429) || raise_for_status status_code
      || match from_ical text with inl _ => true | inr _ => false end
  end.

(** The test of line 52 when the clock reads [now]. *)
Definition cache_fresh (now : Z) (g : globals) : bool :=
  match LAST_FETCH g with
  | Some last_fetch => now - instant last_fetch <? 15 * 60 * 1000000
  | None => false
  end.

(** What one event makes the tick do (lines 144 to 161). *)
Definition alert_effects (strftime_display : datetime -> string)
    (channel : Z) (now : Z) (ev : event) : list effect :=
  if in_alert_window (instant (fst ev) - now) then
    [ChannelSend channel (alert_message (snd ev) (strftime_display (fst ev)));
     Print (InfoAlertSent (snd ev) (strftime_display (fst ev)))]
  else [].

(** Two datetimes that carry one tzinfo object have one UTC offset. *)
Definition zones_agree (a b : datetime) : Prop :=
  match tzinfo a, tzinfo b with
  | Some ta, Some tb => same_object ta tb = true -> utcoffset ta = utcoffset tb
  | _, _ => True
  end.

(** No tzinfo object gives two events of the list two offsets: there
    [<] on their datetimes is the order of their instants. *)
Definition consistent_zones (events : list event) : Prop :=
  forall a b, In a events -> In b events -> zones_agree (fst a) (fst b).

(** The events at the instant [k]. *)
Definition same_time (k : Z) (ev : event) : bool := instant (fst ev) =? k.

(** Ascending order of the instants of two events. *)
Definition time_le (a b : event) : Prop := instant (fst a) <= instant (fst b).

(** ** Sample data *)

Module Sample.

Local Open Scope string_scope.

Definition minute : Z := 60 * 1000000.
Definition hour : Z := 60 * minute.

Definition at_utc (t : Z) : datetime := {| wall := t; tzinfo := Some UTC |}.

Definition vevent (description summary : string) (start : dt_value) : component :=
  {| name := "VEVENT"; DESCRIPTION := Some description; SUMMARY := Some summary;
     DTSTART := Some start; subcomponents := [] |}.

Definition tz_component : component :=
  {| name := "VTIMEZONE"; DESCRIPTION := Some "Impact: High"; SUMMARY := None;
     DTSTART := None; subcomponents := [] |}.
Definition nfp : component :=
  vevent "Impact: High" "NFP" (DtDatetime (at_utc (10 * minute))).
Definition pmi : component :=
  vevent "Impact: Low" "PMI" (DtDatetime (at_utc (5 * minute))).
Definition cpi : component :=
  vevent "High Impact Expected" "CPI"
    (DtDatetime {| wall := 3 * hour; tzinfo := None |}).
Definition past : component :=
  vevent "Impact: High" "Past" (DtDatetime (at_utc 0)).
Definition holiday : component := vevent "Impact: High" "Holiday" (DtDate 1).

(** A calendar with one event for each marker, one of low impact, one
    that starts at instant 0, one with a date only and a time zone
    component. *)
Definition calendar : component :=
  {| name := "VCALENDAR"; DESCRIPTION := None; SUMMARY := None; DTSTART := None;
     subcomponents := [tz_component; nfp; pmi; cpi; past; holiday] |}.

Definition from_ical (text : string) : exception + component :=
  if String.eqb text "BEGIN:VCALENDAR" then inr calendar
  else inl (ValueError "Content line could not be parsed into parts").

Definition strftime_display (dt : datetime) : string := "2025-01-01 05:30 IST".

Definition ev_1h : event := (at_utc (1 * hour), "A"%string).
Definition ev_2h : event := (at_utc (2 * hour), "B"%string).
Definition ev_3h : event := (at_utc (3 * hour), "C"%string).

(** A cache filled at instant 0 with events at +1h, +3h, +2h. *)
Definition cache : globals :=
  {| LAST_FETCH := Some (at_utc 0); CACHED_EVENTS := [ev_1h; ev_3h; ev_2h] |}.


Definition timed_out : http_outcome :=
  RequestRaised (RequestException "Read timed out.").

Definition command : message :=
  {| author := 7; channel_id := CHANNEL_ID; content := "!NextNews please" |}.

End Sample.

(** ** Startup, the period of the tick and runs of the handlers *)

(** [@tasks.loop(seconds=60)]: the period of [check_news], in seconds and
    as a [timedelta]. *)
Definition LOOP_SECONDS : Z := 60.
Definition tick_period : timedelta := LOOP_SECONDS * 1000000.

(** The lines [on_ready] prints. *)
Inductive ready_line : Type :=
| LoggedIn (client_user : Z)
| ErrorTokenNotSet
| StartedChecking.

(** What [on_ready] does to its environment: a line printed, or
    [check_news.start()]. *)
Inductive ready_effect : Type :=
| ReadyPrint (line : ready_line)
| StartCheckNews.

(** [on_ready()]: [TOKEN] is the module variable of line 12 and
    [is_running] what [check_news.is_running()] answers; the result is
    whether the task runs afterwards, and the effects. *)
Definition on_ready (TOKEN : option string) (client_user : Z) (is_running : bool)
  : bool * list ready_effect :=
  let logged := [ReadyPrint (LoggedIn client_user)] in
  let warned :=
    match TOKEN with
    | None => logged ++ [ReadyPrint ErrorTokenNotSet]
    | Some _ => logged
    end in
  if negb is_running
  then (true, warned ++ [StartCheckNews; ReadyPrint StartedChecking])
  else (is_running, warned).

(** [on_ready] called [n] times in a row (the client calls it again after
    every reconnection). *)
Fixpoint on_ready_times (TOKEN : option string) (client_user : Z) (n : nat)
    (is_running : bool) : bool * list ready_effect :=
  match n with
  | O => (is_running, [])
  | S n' =>
      let '(running, t1) := on_ready TOKEN client_user is_running in
      let '(running', t2) := on_ready_times TOKEN client_user n' running in
      (running', t1 ++ t2)
  end.

(** How often a trace starts the task. *)
Definition starts (t : list ready_effect) : nat :=
  List.length (filter (fun ef => match ef with StartCheckNews => true | _ => false end) t).

(** One invocation of a handler by the client, with what the environment
    hands to it. *)
Inductive call : Type :=
| TickCall (channel : option Z) (now now_cache : Z) (net : http_outcome)
| MessageCall (client_user : Z) (msg : message) (now_cache : Z) (net : http_outcome).

(** The globals after one invocation, and after a sequence of them. *)
Definition after_call (from_ical : string -> exception + component)
    (strftime_display : datetime -> string) (g : globals) (c : call) : globals :=
  match c with
  | TickCall channel now now_cache net =>
      globals_after (check_news from_ical strftime_display channel now now_cache net g)
  | MessageCall client_user msg now_cache net =>
      globals_after (on_message from_ical strftime_display client_user msg now_cache net g)
  end.

Definition after_calls (from_ical : string -> exception + component)
    (strftime_display : datetime -> string) (calls : list call) (g : globals)
  : globals :=
  fold_left (after_call from_ical strftime_display) calls g.

(** Every cached event lies strictly after the instant of the fetch that
    stored it; nothing is cached before the first fetch. *)
Definition cache_future (g : globals) : Prop :=
  match LAST_FETCH g with
  | Some last_fetch =>
      Forall (fun ev : event => instant last_fetch < instant (fst ev)) (CACHED_EVENTS g)
  | None => CACHED_EVENTS g = []
  end.

(** ** More sample data *)

Module MoreSample.

Local Open Scope string_scope.

(** A VEVENT without DESCRIPTION and without DTSTART. *)
Definition bare_event : component :=
  {| name := "VEVENT"; DESCRIPTION := None; SUMMARY := Some "Bare"; DTSTART := None;
     subcomponents := [] |}.

(** A calendar in which nothing is a marked VEVENT. *)
Definition quiet_calendar : component :=
  {| name := "VCALENDAR"; DESCRIPTION := None; SUMMARY := None; DTSTART := None;
     subcomponents := [Sample.tz_component; bare_event; Sample.pmi] |}.

(** A marked VEVENT without DTSTART. *)
Definition broken_event : component :=
  {| name := "VEVENT"; DESCRIPTION := Some "Impact: High"; SUMMARY := Some "Broken";
     DTSTART := None; subcomponents := [] |}.

(** A calendar with a good event in front of the broken one. *)
Definition broken_calendar : component :=
  {| name := "VCALENDAR"; DESCRIPTION := None; SUMMARY := None; DTSTART := None;
     subcomponents := [Sample.nfp; broken_event] |}.

Definition from_ical_broken (text : string) : exception + component :=
  inr broken_calendar.

(** A cache filled at instant 0 that holds an event at 29:30. *)
Definition ev_soon : event := (Sample.at_utc (29 * Sample.minute + 30000000), "Soon").
Definition stale_cache : globals :=
  {| LAST_FETCH := Some (Sample.at_utc 0); CACHED_EVENTS := [ev_soon; Sample.ev_1h] |}.

(** The first tick of the process, with a good response. *)
Definition first_tick : call :=
  TickCall (Some CHANNEL_ID) 0 0 (Response 200 "BEGIN:VCALENDAR").

(** Two events of one zone object (identity 1) on a day the clocks go
    forward: 02:30 at -05:00 and 03:15 at -04:00 of 2025-03-09. *)
Definition spring_forward_day : Z := 739318 * 86400000000.
Definition ev_gap : event :=
  ({| wall := spring_forward_day + 150 * Sample.minute;
      tzinfo := Some (Zone 1 (- (5 * Sample.hour))) |}, "Gap").
Definition ev_after : event :=
  ({| wall := spring_forward_day + 195 * Sample.minute;
      tzinfo := Some (Zone 1 (- (4 * Sample.hour))) |}, "After").

Definition chatter : message :=
  {| author := 7; channel_id := CHANNEL_ID; content := "what is !nextnews" |}.

End MoreSample.

(** * Properties *)

(** ** Strings *)

Lemma startswith_spec : forall prefix s,
  PyStr.startswith s prefix = true <-> exists rest, s = (prefix ++ rest)%string.
Proof.
  induction prefix as [|p prefix IH]; intros s; simpl.
  - split; [intros _; exists s; reflexivity | reflexivity].
  - destruct s as [|c s]; simpl.
    + split; [discriminate | intros [rest H]; discriminate].
    + rewrite andb_true_iff, Ascii.eqb_eq, IH. split.
      * intros [-> [rest ->]]. exists rest. reflexivity.
      * intros [rest H]. injection H as -> ->. split; [reflexivity | eauto].
Qed.

(** [str_in] is the sub-string test. *)
Lemma str_in_spec : forall needle hay,
  PyStr.str_in needle hay = true
  <-> exists before after, hay = (before ++ needle ++ after)%string.
Proof.
  intros needle hay. induction hay as [|c hay IH].
  - cbn [PyStr.str_in]. rewrite startswith_spec. split.
    + intros [rest H]. exists EmptyString, rest. exact H.
    + intros [before [after H]].
      destruct before; [exists after; exact H | discriminate].
  - cbn [PyStr.str_in]. rewrite orb_true_iff, startswith_spec, IH. split.
    + intros [[rest H] | [before [after H]]].
      * exists EmptyString, rest. exact H.
      * exists (String c before), after. simpl. now rewrite H.
    + intros [before [after H]]. destruct before as [|b before].
      * left. exists after. exact H.
      * right. simpl in H. injection H as _ H. eauto.
Qed.

Lemma startswith_append : forall prefix rest,
  PyStr.startswith (prefix ++ rest) prefix = true.
Proof. intros. apply startswith_spec. eauto. Qed.

Lemma lower_append : forall a b,
  PyStr.lower (a ++ b) = (PyStr.lower a ++ PyStr.lower b)%string.
Proof. induction a; intros; simpl; [reflexivity | now rewrite IHa]. Qed.

(** ** Datetimes *)

Lemma aware_iff : forall dt, aware dt <-> awareb dt = true.
Proof.
  intros [w [off|]]; unfold aware, awareb; simpl; split; congruence.
Qed.

Lemma instant_now : forall now, instant (datetime_now UTC now) = now.
Proof. intros. unfold instant, datetime_now. simpl. lia. Qed.

Lemma aware_now : forall now, aware (datetime_now UTC now).
Proof. intros now. unfold aware. simpl. discriminate. Qed.

(** Against a value of [pytz.UTC], subtraction and comparison go by the
    instants, whatever object the other value carries. *)
Lemma dt_sub_from_now : forall now b,
  aware b -> dt_sub (datetime_now UTC now) b = Return (now - instant b).
Proof.
  intros now [wb [[|i ob]|]] Hb; unfold aware in Hb; cbn in *;
    try congruence; f_equal; lia.
Qed.

Lemma dt_sub_to_now : forall a now,
  aware a -> dt_sub a (datetime_now UTC now) = Return (instant a - now).
Proof.
  intros [wa [[|i oa]|]] now Ha; unfold aware in Ha; cbn in *;
    try congruence; f_equal; lia.
Qed.

Lemma dt_lt_from_now : forall now b,
  aware b -> dt_lt (datetime_now UTC now) b = Return (now <? instant b).
Proof.
  intros now [wb [[|i ob]|]] Hb; unfold aware in Hb; cbn in *;
    try congruence; f_equal;
    destruct (Z.ltb_spec (now + 0) wb), (Z.ltb_spec now (wb - 0));
    try reflexivity; try lia;
    destruct (Z.ltb_spec (now + 0 - 0) (wb - ob)), (Z.ltb_spec now (wb - ob));
    try reflexivity; lia.
Qed.

Lemma dt_lt_agree : forall a b,
  aware a -> aware b -> zones_agree a b ->
  dt_lt a b = Return (instant a <? instant b).
Proof.
  intros [wa [ta|]] [wb [tb|]] Ha Hb Hz; unfold aware in *; cbn in *;
    try congruence.
  destruct (same_object ta tb); [|reflexivity].
  rewrite (Hz eq_refl). f_equal.
  destruct (Z.ltb_spec wa wb), (Z.ltb_spec (wa - utcoffset tb) (wb - utcoffset tb));
    try reflexivity; lia.
Qed.

Lemma event_time_of_aware : forall start, aware (event_time_of start).
Proof.
  intros [[w [off|]]|d]; unfold aware; simpl; discriminate.
Qed.

Lemma dt_gt_now : forall dt now,
  aware dt -> dt_gt dt (datetime_now UTC now) = Return (now <? instant dt).
Proof.
  intros dt now H. unfold dt_gt. now apply dt_lt_from_now.
Qed.

(** ** The normaliser *)

Lemma qualifies_iff : forall c,
  qualifies c = true
  <-> name c = "VEVENT"%string
      /\ (PyStr.str_in MARKER_IMPACT_HIGH (description_of c) = true
          \/ PyStr.str_in MARKER_HIGH_IMPACT_EXPECTED (description_of c) = true).
Proof.
  intros c. unfold qualifies, lacks_markers.
  rewrite andb_true_iff, String.eqb_eq, negb_true_iff, andb_false_iff,
    !negb_false_iff. reflexivity.
Qed.

Lemma normalize_step_spec : forall now events c,
  normalize_step (datetime_now UTC now) events c
  = if qualifies c then
      match DTSTART c with
      | None => Raise none_has_no_dt
      | Some _ => Return (events ++ contribution now c)
      end
    else Return events.
Proof.
  intros now events c. unfold normalize_step, contribution, qualifies.
  destruct (String.eqb (name c) "VEVENT"); simpl; [|reflexivity].
  destruct (lacks_markers (description_of c)); simpl; [reflexivity|].
  destruct (DTSTART c) as [start|]; [|reflexivity].
  rewrite dt_gt_now by apply event_time_of_aware. simpl.
  destruct (now <? instant (event_time_of start)); [reflexivity|].
  now rewrite app_nil_r.
Qed.

Lemma normalize_loop_spec : forall now components events,
  normalize_loop (datetime_now UTC now) components events
  = if existsb missing_dtstart components then Raise none_has_no_dt
    else Return (events ++ flat_map (contribution now) components).
Proof.
  intros now components. induction components as [|c rest IH]; intros events.
  - simpl. now rewrite app_nil_r.
  - cbn [normalize_loop existsb flat_map]. rewrite normalize_step_spec.
    unfold missing_dtstart at 1. unfold contribution at 2.
    destruct (qualifies c) eqn:Hq; simpl.
    + destruct (DTSTART c) as [start|] eqn:Hs; simpl; [|reflexivity].
      rewrite IH. destruct (existsb missing_dtstart rest); [reflexivity|].
      unfold contribution at 1. rewrite Hq, Hs. now rewrite <- app_assoc.
    + apply IH.
Qed.

Lemma in_contribution : forall now c ev,
  In ev (contribution now c) <->
  exists start, qualifies c = true /\ DTSTART c = Some start
    /\ now < instant (event_time_of start)
    /\ ev = (event_time_of start, summary_of c).
Proof.
  intros now c ev. unfold contribution.
  destruct (qualifies c); [|split; [intros [] | intros [s [H _]]; discriminate]].
  destruct (DTSTART c) as [start|];
    [|split; [intros [] | intros [s [_ [H _]]]; discriminate]].
  destruct (Z.ltb_spec now (instant (event_time_of start))); simpl; split.
  - intros [<- | []]. exists start. auto.
  - intros [s [_ [Hs [_ ->]]]]. injection Hs as ->. now left.
  - intros [].
  - intros [s [_ [Hs [Hlt _]]]]. injection Hs as ->. lia.
Qed.

Lemma contribution_aware : forall now c,
  Forall (fun ev : event => aware (fst ev)) (contribution now c).
Proof.
  intros now c. apply Forall_forall. intros ev H.
  apply in_contribution in H. destruct H as [start [_ [_ [_ ->]]]].
  apply event_time_of_aware.
Qed.

Lemma normalize_returns_aware : forall now cal events,
  normalize (datetime_now UTC now) cal = Return events ->
  Forall (fun ev : event => aware (fst ev)) events.
Proof.
  intros now cal events. unfold normalize. rewrite normalize_loop_spec.
  destruct (existsb missing_dtstart (walk cal)); [discriminate|].
  intros H. injection H as <-. simpl. apply Forall_flat_map, Forall_forall.
  intros c _. apply contribution_aware.
Qed.

Lemma normalize_loop_filter : forall now (keep : component -> bool) components events,
  (forall c, keep c = false -> missing_dtstart c = false /\ contribution now c = []) ->
  normalize_loop (datetime_now UTC now) (filter keep components) events
  = normalize_loop (datetime_now UTC now) components events.
Proof.
  intros now keep components events Hkeep. rewrite !normalize_loop_spec.
  assert (He : existsb missing_dtstart (filter keep components)
               = existsb missing_dtstart components).
  { induction components as [|c rest IH]; [reflexivity|]. cbn [filter existsb].
    destruct (keep c) eqn:Hk; cbn [existsb]; rewrite IH; [reflexivity|].
    now rewrite (proj1 (Hkeep c Hk)). }
  assert (Hf : flat_map (contribution now) (filter keep components)
               = flat_map (contribution now) components).
  { clear He. induction components as [|c rest IH]; [reflexivity|].
    cbn [filter flat_map].
    destruct (keep c) eqn:Hk; cbn [flat_map]; rewrite IH; [reflexivity|].
    now rewrite (proj2 (Hkeep c Hk)). }
  now rewrite He, Hf.
Qed.

(** C4: [normalize] returns only events that come from a VEVENT component
    whose description contains one of the two literal markers; a component
    of another type, or one whose description has neither marker, is left
    out: the loop over the marked VEVENT components alone gives the same
    result.  The only way [normalize] does not return is a marked VEVENT without
    DTSTART. *)
Theorem normalize_only_high_impact : forall now cal,
  ((exists events,
      normalize (datetime_now UTC now) cal = Return events
      /\ forall ev, In ev events ->
           exists c start,
             In c (walk cal)
             /\ name c = "VEVENT"%string
             /\ (PyStr.str_in "Impact: High" (description_of c) = true
                 \/ PyStr.str_in "High Impact Expected" (description_of c) = true)
             /\ DTSTART c = Some start
             /\ ev = (event_time_of start, summary_of c))
   \/ (exists c,
         In c (walk cal) /\ qualifies c = true /\ DTSTART c = None
         /\ normalize (datetime_now UTC now) cal = Raise none_has_no_dt))
  /\ normalize (datetime_now UTC now) cal
     = normalize_loop (datetime_now UTC now)
         (filter (fun c =>
                    String.eqb (name c) "VEVENT"
                    && (PyStr.str_in "Impact: High" (description_of c)
                        || PyStr.str_in "High Impact Expected" (description_of c)))
            (walk cal))
         [].
Proof.
  intros now cal. split.
  - unfold normalize. rewrite normalize_loop_spec.
    destruct (existsb missing_dtstart (walk cal)) eqn:Hm.
    + right. apply existsb_exists in Hm. destruct Hm as [c [Hin Hc]].
      unfold missing_dtstart in Hc. apply andb_true_iff in Hc.
      destruct Hc as [Hq Hd]. exists c. repeat split; auto.
      destruct (DTSTART c); [discriminate | reflexivity].
    + left. eexists. split; [reflexivity|]. simpl. intros ev Hev.
      apply in_flat_map in Hev. destruct Hev as [c [Hin Hev]].
      apply in_contribution in Hev. destruct Hev as [start [Hq [Hs [_ ->]]]].
      apply qualifies_iff in Hq. destruct Hq as [Hn Hmark].
      exists c, start. auto.
  - unfold normalize. symmetry. apply normalize_loop_filter.
    intros c Hc.
    assert (Hq : qualifies c = false).
    { unfold qualifies, lacks_markers, MARKER_IMPACT_HIGH, MARKER_HIGH_IMPACT_EXPECTED.
      rewrite negb_andb, !negb_involutive. exact Hc. }
    unfold missing_dtstart, contribution. now rewrite Hq.
Qed.

(** C5: when every marked VEVENT has a DTSTART, [normalize] returns; every
    event it returns lies strictly after [now]; every marked VEVENT whose
    normalised start lies strictly after [now] is among them; and the
    components whose start is at [now] or before add nothing: the loop
    over the others alone returns the same events. *)
Theorem normalize_future_only : forall now cal,
  (forall c, In c (walk cal) -> qualifies c = true -> DTSTART c <> None) ->
  exists events,
    normalize (datetime_now UTC now) cal = Return events
    /\ (forall ev, In ev events -> now < instant (fst ev))
    /\ (forall c start,
          In c (walk cal) -> qualifies c = true -> DTSTART c = Some start ->
          now < instant (event_time_of start) ->
          In (event_time_of start, summary_of c) events)
    /\ normalize_loop (datetime_now UTC now)
         (filter (fun c =>
                    match DTSTART c with
                    | Some start => now <? instant (event_time_of start)
                    | None => true
                    end)
            (walk cal))
         []
       = Return events.
Proof.
  intros now cal Hall. unfold normalize.
  assert (Hm : existsb missing_dtstart (walk cal) = false).
  { destruct (existsb missing_dtstart (walk cal)) eqn:E; [|reflexivity].
    apply existsb_exists in E. destruct E as [c [Hin Hc]].
    unfold missing_dtstart in Hc. apply andb_true_iff in Hc.
    destruct Hc as [Hq Hd]. specialize (Hall c Hin Hq).
    destruct (DTSTART c); [discriminate | congruence]. }
  exists (flat_map (contribution now) (walk cal)).
  split; [now rewrite normalize_loop_spec, Hm|].
  split; [|split].
  - intros ev Hev. apply in_flat_map in Hev. destruct Hev as [c [_ Hev]].
    apply in_contribution in Hev. destruct Hev as [start [_ [_ [Hlt ->]]]].
    exact Hlt.
  - intros c start Hin Hq Hs Hlt. apply in_flat_map. exists c.
    split; [exact Hin|]. apply in_contribution. exists start. auto.
  - rewrite normalize_loop_filter; [now rewrite normalize_loop_spec, Hm|].
    intros c Hc. unfold missing_dtstart, contribution.
    destruct (DTSTART c) as [start|]; [|discriminate].
    rewrite Hc. split; [apply andb_false_r | now destruct (qualifies c)].
Qed.

(** C7: a start value with a time of day and a zone is used as it is; one
    without a zone keeps its fields and is placed in UTC; a date becomes
    midnight of that date in UTC; so the start of every event is aware,
    and so is every event [normalize] returns. *)
Theorem event_time_is_aware :
  (forall dt off, tzinfo dt = Some off -> event_time_of (DtDatetime dt) = dt)
  /\ (forall dt, tzinfo dt = None ->
        event_time_of (DtDatetime dt) = {| wall := wall dt; tzinfo := Some UTC |})
  /\ (forall d,
        event_time_of (DtDate d) = {| wall := d * 86400000000; tzinfo := Some UTC |})
  /\ (forall start, exists off, tzinfo (event_time_of start) = Some off)
  /\ (forall now cal events ev,
        normalize (datetime_now UTC now) cal = Return events ->
        In ev events -> exists off, tzinfo (fst ev) = Some off).
Proof.
  assert (aware_some : forall dt, aware dt -> exists off, tzinfo dt = Some off).
  { intros [w [off|]] H; [exists off; reflexivity | now elim H]. }
  split; [|split; [|split; [|split]]].
  - intros dt off H. simpl. now rewrite H.
  - intros dt H. simpl. now rewrite H.
  - reflexivity.
  - intros start. apply aware_some, event_time_of_aware.
  - intros now cal events ev Hn Hin. apply aware_some.
    apply normalize_returns_aware in Hn.
    rewrite Forall_forall in Hn. now apply Hn.
Qed.

(** The globals the program starts from satisfy the invariant. *)
Lemma initial_globals_ok : globals_ok initial_globals.
Proof. split; [discriminate | constructor]. Qed.

(** ** Runs of the monad *)

Lemma http_requests_log : forall lines, http_requests (map Print lines) = [].
Proof. induction lines; simpl; auto. Qed.

Lemma sends_log : forall lines, sends (map Print lines) = [].
Proof. induction lines; simpl; auto. Qed.

Lemma sends_app : forall t1 t2, sends (t1 ++ t2) = sends t1 ++ sends t2.
Proof.
  induction t1 as [|ef t1 IH]; intros t2; simpl; [reflexivity|].
  destruct ef; simpl; now rewrite IH.
Qed.

Lemma http_requests_app : forall t1 t2,
  http_requests (t1 ++ t2) = http_requests t1 ++ http_requests t2.
Proof. intros. apply filter_app. Qed.

(** A loop whose body only prints leaves the globals alone. *)
Lemma for_each_log : forall (A : Type) (body : A -> M unit) (line : A -> log_line),
  (forall x g, body x g = (Return tt, g, [Print (line x)])) ->
  forall xs g, for_each xs body g = (Return tt, g, map Print (map line xs)).
Proof.
  intros A body line Hbody xs. induction xs as [|x xs IH]; intros g.
  - reflexivity.
  - cbn [for_each map]. unfold bind. now rewrite Hbody, IH.
Qed.

(** A loop whose body raises on some elements and prints on the others
    stops at the first that raises, and leaves the globals alone. *)
Lemma for_each_checked :
  forall (A : Type) (body : A -> M unit) (bad : A -> bool) (e : exception)
         (line : A -> log_line),
    (forall x g,
        body x g = if bad x then (Raise e, g, [])
                   else (Return tt, g, [Print (line x)])) ->
    forall xs g, exists lines,
      for_each xs body g
      = ((if existsb bad xs then Raise e else Return tt), g, map Print lines).
Proof.
  intros A body bad e line Hbody xs. induction xs as [|x xs IH]; intros g.
  - exists []. reflexivity.
  - cbn [for_each existsb]. unfold bind. rewrite Hbody.
    destruct (bad x); cbn [orb].
    + exists []. reflexivity.
    + destruct (IH g) as [lines ->]. exists (line x :: lines). reflexivity.
Qed.

Lemma existsb_enumerate : forall (events : list event) i,
  existsb (fun '(_, (ev_time, _)) => astimezone_display_overflows ev_time)
    (enumerate i events)
  = existsb (fun ev : event => astimezone_display_overflows (fst ev)) events.
Proof.
  induction events as [|[t sm] rest IH]; intros i; [reflexivity|].
  cbn [enumerate existsb fst]. now rewrite IH.
Qed.

Section CacheRuns.

Variable from_ical : string -> exception + component.

Lemma fall_back_run : forall g,
  exists lines, fall_back g = (Return (CACHED_EVENTS g), g, map Print lines).
Proof.
  intros g. unfold fall_back, bind, get_globals, print, emit, ret.
  destruct (CACHED_EVENTS g) as [|ev rest] eqn:E.
  - exists []. reflexivity.
  - exists [InfoFallback]. reflexivity.
Qed.

(** A failed refresh returns the stored events and leaves the globals. *)
Lemma refresh_failed : forall now_utc net g,
  failed_refresh from_ical net = true ->
  exists lines,
    refresh from_ical now_utc net g
    = (Return (CACHED_EVENTS g), g,
       Print DebugRefreshing :: the_request :: map Print lines).
Proof.
  intros now_utc net g Hf. unfold refresh.
  destruct net as [e | status_code text]; simpl in Hf.
  - destruct (fall_back_run g) as [lines Hfb].
    exists (ErrorFetch e :: lines).
    unfold bind, print, emit. now rewrite Hfb.
  - destruct (status_code =? 429) eqn:H429.
    + exists [Warn429]. reflexivity.
    + destruct (raise_for_status status_code) eqn:Hr.
      * destruct (fall_back_run g) as [lines Hfb].
        exists (ErrorFetch (HTTPError status_code) :: lines).
        unfold bind, print, emit. now rewrite Hfb.
      * simpl in Hf. destruct (from_ical text) as [e | cal] eqn:Hp; [|discriminate].
        destruct (fall_back_run g) as [lines Hfb].
        exists (ErrorParse e :: lines).
        unfold bind, print, emit. now rewrite Hfb.
Qed.

(** A refresh whose body parses lets the exception of the normaliser
    through or stores the normalised events; it then returns them, unless
    the conversion of one of the first five for the log raises. *)
Lemma refresh_parsed : forall now_utc status_code text cal g,
  failed_refresh from_ical (Response status_code text) = false ->
  from_ical text = inr cal ->
  match normalize now_utc cal with
  | Return events =>
      exists lines,
        refresh from_ical now_utc (Response status_code text) g
        = ((if existsb (fun ev : event => astimezone_display_overflows (fst ev))
                 (firstn 5 events)
            then Raise date_out_of_range else Return events),
           {| LAST_FETCH := Some now_utc; CACHED_EVENTS := events |},
           Print DebugRefreshing :: the_request :: map Print lines)
  | Raise e =>
      refresh from_ical now_utc (Response status_code text) g
      = (Raise e, g, [Print DebugRefreshing; the_request])
  end.
Proof.
  intros now_utc status_code text cal g Hf Hp. simpl in Hf.
  apply orb_false_iff in Hf. destruct Hf as [Hf _].
  apply orb_false_iff in Hf. destruct Hf as [H429 Hr].
  unfold refresh.
  destruct (normalize now_utc cal) as [events | e] eqn:Hn.
  - unfold bind, print, emit, lift, put_globals, ret, raise.
    rewrite H429, Hr, Hp, Hn. cbv beta iota.
    match goal with
    | |- context [for_each ?xs ?body ?st] =>
        destruct (for_each_checked _ body
          (fun '(_, (ev_time, _)) => astimezone_display_overflows ev_time)
          date_out_of_range
          (fun '(i, (ev_time, ev_summary)) => DebugEvent (i + 1) ev_summary ev_time)
          ltac:(intros [i [t sm]] g0; destruct (astimezone_display_overflows t);
                reflexivity)
          xs st) as [lines Hloop];
        rewrite Hloop
    end.
    rewrite existsb_enumerate.
    exists (DebugFetched (List.length events) :: lines).
    destruct (existsb _ (firstn 5 events)); cbn; [reflexivity|].
    now rewrite app_nil_r.
  - unfold bind, print, emit, lift. rewrite H429, Hr, Hp, Hn. reflexivity.
Qed.

(** [get_red_news] on reachable globals: the cached events when the
    cache is fresh, the refresh otherwise. *)
Lemma get_red_news_run : forall now net g,
  globals_ok g ->
  get_red_news from_ical now net g
  = if cache_fresh now g then
      match LAST_FETCH g with
      | Some last_fetch =>
          (Return (CACHED_EVENTS g), g,
           [Print (DebugUsingCached (List.length (CACHED_EVENTS g))
                     (seconds (now - instant last_fetch) / 60))])
      | None => refresh from_ical (datetime_now UTC now) net g
      end
    else refresh from_ical (datetime_now UTC now) net g.
Proof.
  intros now net g [Hlf _]. unfold get_red_news, cache_fresh.
  unfold bind at 1. unfold get_globals at 1. cbv iota beta.
  destruct (LAST_FETCH g) as [last_fetch|] eqn:E.
  - specialize (Hlf last_fetch eq_refl).
    unfold bind, lift, print, emit, ret.
    rewrite dt_sub_from_now by assumption.
    unfold timedelta_minutes, CACHE_TTL_MINUTES.
    destruct (now - instant last_fetch <? 15 * 60 * 1000000) eqn:Hfresh.
    + reflexivity.
    + destruct (refresh from_ical (datetime_now UTC now) net g) as [[r g'] t].
      reflexivity.
  - destruct (refresh from_ical (datetime_now UTC now) net g) as [[r g'] t].
    reflexivity.
Qed.

End CacheRuns.

Lemma normalize_cases : forall now cal,
  (existsb missing_dtstart (walk cal) = false
   /\ normalize (datetime_now UTC now) cal
      = Return (flat_map (contribution now) (walk cal)))
  \/ (existsb missing_dtstart (walk cal) = true
      /\ normalize (datetime_now UTC now) cal = Raise none_has_no_dt).
Proof.
  intros now cal. unfold normalize. rewrite normalize_loop_spec.
  destruct (existsb missing_dtstart (walk cal)); auto.
Qed.

Section CacheProperties.

Variable from_ical : string -> exception + component.

(** Every refresh issues the one request and sends nothing; it fails and
    serves the cache, or stores the normalised events (and then returns
    them or raises on the log), or lets the normaliser's exception
    through. *)
Lemma refresh_outcome : forall now net g,
  let r := refresh from_ical (datetime_now UTC now) net g in
  http_requests (trace r) = [the_request]
  /\ sends (trace r) = []
  /\ ((failed_refresh from_ical net = true
       /\ outcome r = Return (CACHED_EVENTS g) /\ globals_after r = g)
      \/ (exists status_code text cal,
            net = Response status_code text
            /\ failed_refresh from_ical net = false
            /\ from_ical text = inr cal
            /\ ((exists events,
                   normalize (datetime_now UTC now) cal = Return events
                   /\ outcome r
                      = (if existsb (fun ev : event =>
                                       astimezone_display_overflows (fst ev))
                              (firstn 5 events)
                         then Raise date_out_of_range else Return events)
                   /\ globals_after r
                      = {| LAST_FETCH := Some (datetime_now UTC now);
                           CACHED_EVENTS := events |})
                \/ (normalize (datetime_now UTC now) cal = Raise none_has_no_dt
                    /\ outcome r = Raise none_has_no_dt
                    /\ globals_after r = g)))).
Proof.
  intros now net g r. subst r.
  destruct (failed_refresh from_ical net) eqn:Hf.
  - destruct (refresh_failed from_ical (datetime_now UTC now) net g Hf) as [lines ->].
    unfold trace, outcome, globals_after. cbn [fst snd http_requests sends filter is_http_get].
    fold (http_requests (map Print lines)).
    rewrite http_requests_log, sends_log.
    split; [reflexivity | split; [reflexivity | left; auto]].
  - destruct net as [e | status_code text]; [discriminate|].
    destruct (from_ical text) as [e | cal] eqn:Hp.
    { simpl in Hf. rewrite Hp in Hf. now rewrite !orb_true_r in Hf. }
    pose proof (refresh_parsed from_ical (datetime_now UTC now) status_code text cal g Hf Hp)
      as Hrun.
    destruct (normalize_cases now cal) as [[_ Hn] | [_ Hn]]; rewrite Hn in Hrun.
    + destruct Hrun as [lines ->].
      set (events := flat_map (contribution now) (walk cal)) in *.
      unfold trace, outcome, globals_after.
      cbn [fst snd http_requests sends filter is_http_get].
      fold (http_requests (map Print lines)).
      rewrite http_requests_log, sends_log.
      split; [reflexivity | split; [reflexivity | right]].
      exists status_code, text, cal.
      split; [reflexivity | split; [reflexivity | split; [exact Hp | left]]].
      exists events. auto.
    + rewrite Hrun. unfold trace, outcome, globals_after.
      split; [reflexivity | split; [reflexivity | right]].
      exists status_code, text, cal.
      split; [reflexivity | split; [reflexivity | split; [exact Hp | right]]].
      auto.
Qed.

(** The invariant: what [get_red_news] stores and returns is aware. *)
Lemma get_red_news_keeps_ok : forall now net g,
  globals_ok g ->
  let r := get_red_news from_ical now net g in
  globals_ok (globals_after r)
  /\ forall events, outcome r = Return events ->
       Forall (fun ev : event => aware (fst ev)) events.
Proof.
  intros now net g Hok r. subst r. rewrite get_red_news_run by assumption.
  assert (Hrefresh :
    let r := refresh from_ical (datetime_now UTC now) net g in
    globals_ok (globals_after r)
    /\ forall events, outcome r = Return events ->
         Forall (fun ev : event => aware (fst ev)) events).
  { destruct (refresh_outcome now net g) as [_ [_ Hcases]]. cbv zeta in *.
    destruct Hcases as [[_ [Ho Hg]] | [sc [text [cal [_ [_ [_ Hcases]]]]]]].
    - rewrite Ho, Hg. split; [assumption|].
      intros events H. injection H as <-. apply Hok.
    - destruct Hcases as [[events [Hn [Ho Hg]]] | [_ [Ho Hg]]].
      + apply normalize_returns_aware in Hn. rewrite Ho, Hg. split.
        * split; simpl; [|assumption].
          intros lf H. injection H as <-. apply aware_now.
        * intros events' H.
          destruct (existsb _ (firstn 5 events)); [discriminate|].
          now injection H as <-.
      + rewrite Ho, Hg. split; [assumption | discriminate]. }
  destruct (cache_fresh now g); [|exact Hrefresh].
  destruct (LAST_FETCH g); [|exact Hrefresh].
  unfold outcome, globals_after. simpl. split; [assumption|].
  intros events H. injection H as <-. apply Hok.
Qed.

(** C2, as the code has it: on reachable globals a failing refresh (the
    request raised, a 429, a status from 400 to 599 or a body that
    [Calendar.from_ical] does not parse) makes
    [get_red_news] return the stored events and leaves [LAST_FETCH] and
    [CACHED_EVENTS] as they were; before any successful fetch that is
    the empty list. *)
Theorem failed_refresh_serves_stale : forall now net g,
  globals_ok g ->
  failed_refresh from_ical net = true ->
  outcome (get_red_news from_ical now net g) = Return (CACHED_EVENTS g)
  /\ globals_after (get_red_news from_ical now net g) = g
  /\ (g = initial_globals ->
      outcome (get_red_news from_ical now net g) = Return []).
Proof.
  intros now net g Hok Hf.
  assert (H : outcome (get_red_news from_ical now net g) = Return (CACHED_EVENTS g)
              /\ globals_after (get_red_news from_ical now net g) = g).
  { rewrite get_red_news_run by assumption.
    destruct (refresh_outcome now net g) as [_ [_ Hcases]]. cbv zeta in Hcases.
    destruct Hcases as [[_ [Ho Hg]] | [sc [text [cal [_ [Hnf _]]]]]];
      [|congruence].
    destruct (cache_fresh now g); [|auto].
    destruct (LAST_FETCH g); auto. }
  destruct H as [Ho Hg]. repeat split; auto.
  intros ->. exact Ho.
Qed.

(** C3: on reachable globals, while less than 15 minutes have passed
    since [LAST_FETCH], [get_red_news] returns the stored events, leaves
    the globals and issues no request; once 15 minutes or more have
    passed, or when nothing was fetched yet, it issues the request. *)
Theorem fresh_cache_skips_fetch : forall now net g,
  globals_ok g ->
  (forall last_fetch,
      LAST_FETCH g = Some last_fetch ->
      now - instant last_fetch < 15 * 60 * 1000000 ->
      outcome (get_red_news from_ical now net g) = Return (CACHED_EVENTS g)
      /\ globals_after (get_red_news from_ical now net g) = g
      /\ http_requests (trace (get_red_news from_ical now net g)) = [])
  /\ (forall last_fetch,
        LAST_FETCH g = Some last_fetch ->
        15 * 60 * 1000000 <= now - instant last_fetch ->
        http_requests (trace (get_red_news from_ical now net g))
        = [HttpGet FOREX_ICS 10 "ForexNewsBot/1.0"])
  /\ (LAST_FETCH g = None ->
      http_requests (trace (get_red_news from_ical now net g))
      = [HttpGet FOREX_ICS 10 "ForexNewsBot/1.0"]).
Proof.
  intros now net g Hok. rewrite get_red_news_run by assumption.
  destruct (refresh_outcome now net g) as [Hreq _]. cbv zeta in Hreq.
  unfold cache_fresh. split; [|split].
  - intros lf Hlf Hlt. rewrite Hlf.
    destruct (Z.ltb_spec (now - instant lf) (15 * 60 * 1000000)); [|lia].
    repeat split.
  - intros lf Hlf Hge. rewrite Hlf.
    destruct (Z.ltb_spec (now - instant lf) (15 * 60 * 1000000)); [lia|].
    exact Hreq.
  - intros Hlf. rewrite Hlf. exact Hreq.
Qed.

Lemma existsb_false_Forall : forall (events : list event),
  existsb (fun ev : event => astimezone_display_overflows (fst ev)) events = false
  <-> Forall (fun ev : event => astimezone_display_overflows (fst ev) = false) events.
Proof.
  induction events as [|ev rest IH]; cbn [existsb].
  - split; [constructor | reflexivity].
  - rewrite orb_false_iff, IH. split.
    + intros [H1 H2]. now constructor.
    + intros H. inversion H. auto.
Qed.

(** [get_red_news] on any globals: a naive [LAST_FETCH] makes the
    subtraction of line 52 raise. *)
Lemma get_red_news_unfold : forall now net g,
  get_red_news from_ical now net g
  = match LAST_FETCH g with
    | None => refresh from_ical (datetime_now UTC now) net g
    | Some last_fetch =>
        match dt_sub (datetime_now UTC now) last_fetch with
        | Raise e => (Raise e, g, [])
        | Return age =>
            if age <? timedelta_minutes CACHE_TTL_MINUTES
            then (Return (CACHED_EVENTS g), g,
                  [Print (DebugUsingCached (List.length (CACHED_EVENTS g))
                            (seconds age / 60))])
            else refresh from_ical (datetime_now UTC now) net g
        end
    end.
Proof.
  intros now net g. unfold get_red_news.
  unfold bind at 1. unfold get_globals at 1. cbv iota beta.
  destruct (LAST_FETCH g) as [last_fetch|].
  - unfold bind, lift, print, emit, ret.
    destruct (dt_sub (datetime_now UTC now) last_fetch) as [age | e];
      [|reflexivity].
    destruct (age <? timedelta_minutes CACHE_TTL_MINUTES); [reflexivity|].
    now destruct (refresh from_ical (datetime_now UTC now) net g) as [[r g'] t].
  - now destruct (refresh from_ical (datetime_now UTC now) net g) as [[r g'] t].
Qed.

Lemma returned_is_cached : forall now net g events,
  outcome (get_red_news from_ical now net g) = Return events ->
  events = CACHED_EVENTS (globals_after (get_red_news from_ical now net g)).
Proof.
  intros now net g events. rewrite get_red_news_unfold.
  assert (Hrefresh :
    outcome (refresh from_ical (datetime_now UTC now) net g) = Return events ->
    events = CACHED_EVENTS
               (globals_after (refresh from_ical (datetime_now UTC now) net g))).
  { destruct (refresh_outcome now net g) as [_ [_ Hcases]]. cbv zeta in Hcases.
    destruct Hcases as [[_ [Ho Hg]] | [sc [text [cal [_ [_ [_ Hcases]]]]]]].
    - rewrite Ho, Hg. intros H. now injection H as <-.
    - destruct Hcases as [[events0 [_ [Ho Hg]]] | [_ [Ho _]]]; rewrite Ho.
      + rewrite Hg. destruct (existsb _ (firstn 5 events0)); [discriminate|].
        intros H. now injection H as <-.
      + discriminate. }
  destruct (LAST_FETCH g) as [last_fetch|]; [|exact Hrefresh].
  destruct (dt_sub (datetime_now UTC now) last_fetch) as [age | e];
    [|discriminate].
  destruct (age <? timedelta_minutes CACHE_TTL_MINUTES); [|exact Hrefresh].
  unfold outcome, globals_after. cbn [fst snd]. intros H. now injection H as <-.
Qed.

(** C9: on any globals a call of [get_red_news] that returns, returns the
    value [CACHED_EVENTS] holds after the call; and on reachable globals
    it does return, with that value, on a fresh cache, on a failed
    refresh, and on a successful refresh when the first five events can
    be converted for the log. *)
Theorem returned_events_are_the_cache : forall now net g,
  (forall events g' t,
      get_red_news from_ical now net g = (Return events, g', t) ->
      events = CACHED_EVENTS g')
  /\ (globals_ok g ->
      (cache_fresh now g = true ->
       outcome (get_red_news from_ical now net g) = Return (CACHED_EVENTS g)
       /\ globals_after (get_red_news from_ical now net g) = g)
      /\ (failed_refresh from_ical net = true ->
          outcome (get_red_news from_ical now net g) = Return (CACHED_EVENTS g)
          /\ globals_after (get_red_news from_ical now net g) = g)
      /\ (forall status_code text cal events,
            cache_fresh now g = false ->
            net = Response status_code text ->
            failed_refresh from_ical net = false ->
            from_ical text = inr cal ->
            normalize (datetime_now UTC now) cal = Return events ->
            Forall (fun ev : event => astimezone_display_overflows (fst ev) = false)
              (firstn 5 events) ->
            outcome (get_red_news from_ical now net g) = Return events
            /\ CACHED_EVENTS (globals_after (get_red_news from_ical now net g))
               = events
            /\ LAST_FETCH (globals_after (get_red_news from_ical now net g))
               = Some (datetime_now UTC now))).
Proof.
  intros now net g. split.
  - intros events g' t Hrun.
    pose proof (returned_is_cached now net g events) as H.
    rewrite Hrun in H. now apply H.
  - intros Hok. split; [|split].
    + intros Hfresh. rewrite get_red_news_run by assumption. rewrite Hfresh.
      unfold cache_fresh in Hfresh.
      destruct (LAST_FETCH g); [|discriminate]. split; reflexivity.
    + intros Hf. rewrite get_red_news_run by assumption.
      destruct (refresh_failed from_ical (datetime_now UTC now) net g Hf)
        as [lines Hr].
      destruct (cache_fresh now g); [|now rewrite Hr].
      destruct (LAST_FETCH g); [split; reflexivity | now rewrite Hr].
    + intros status_code text cal events Hstale -> Hf Hp Hn Hshow.
      rewrite get_red_news_run by assumption. rewrite Hstale.
      pose proof (refresh_parsed from_ical (datetime_now UTC now) status_code text
                    cal g Hf Hp) as Hr.
      rewrite Hn in Hr. destruct Hr as [lines ->].
      apply existsb_false_Forall in Hshow. rewrite Hshow.
      repeat split.
Qed.

End CacheProperties.

(** ** The scheduled tick *)

Section TickProperties.

Variable from_ical : string -> exception + component.
Variable strftime_display : datetime -> string.

Lemma in_alert_window_iff : forall diff,
  in_alert_window diff = true <-> 9 * 60 * 1000000 < diff <= 10 * 60 * 1000000.
Proof.
  intros diff. unfold in_alert_window, timedelta_minutes.
  rewrite andb_true_iff, Z.ltb_lt, Z.leb_le. reflexivity.
Qed.

Lemma check_event_run : forall channel now ev g,
  aware (fst ev) ->
  check_event strftime_display channel (datetime_now UTC now) ev g
  = (Return tt, g, alert_effects strftime_display channel now ev).
Proof.
  intros channel now [event_time summary] g Haw. simpl in Haw.
  unfold check_event, alert_effects, bind, lift, emit, print, ret.
  rewrite dt_sub_to_now by assumption. simpl.
  destruct (in_alert_window (instant event_time - now)); reflexivity.
Qed.

Lemma check_loop_run : forall channel now events g,
  Forall (fun ev : event => aware (fst ev)) events ->
  for_each events (check_event strftime_display channel (datetime_now UTC now)) g
  = (Return tt, g, flat_map (alert_effects strftime_display channel now) events).
Proof.
  intros channel now events g Haw. induction Haw as [|ev events Hev _ IH].
  - reflexivity.
  - cbn [for_each flat_map]. unfold bind.
    rewrite check_event_run by assumption. now rewrite IH.
Qed.

Lemma sends_alert_effects : forall channel now events,
  sends (flat_map (alert_effects strftime_display channel now) events)
  = map (fun ev : event =>
           (channel, alert_message (snd ev) (strftime_display (fst ev))))
        (filter (fun ev : event => in_alert_window (instant (fst ev) - now)) events).
Proof.
  intros channel now events. induction events as [|ev events IH]; [reflexivity|].
  cbn [flat_map filter]. rewrite sends_app, IH. unfold alert_effects at 1.
  destruct (in_alert_window (instant (fst ev) - now)); reflexivity.
Qed.

Lemma http_requests_alert_effects : forall channel now events,
  http_requests (flat_map (alert_effects strftime_display channel now) events) = [].
Proof.
  intros channel now events. induction events as [|ev events IH]; [reflexivity|].
  cbn [flat_map]. rewrite http_requests_app, IH. unfold alert_effects.
  destruct (in_alert_window (instant (fst ev) - now)); reflexivity.
Qed.

Lemma get_red_news_sends : forall now net g,
  globals_ok g -> sends (trace (get_red_news from_ical now net g)) = [].
Proof.
  intros now net g Hok. rewrite get_red_news_run by assumption.
  destruct (refresh_outcome from_ical now net g) as [_ [Hs _]]. cbv zeta in Hs.
  destruct (cache_fresh now g); [|exact Hs].
  destruct (LAST_FETCH g); [reflexivity | exact Hs].
Qed.

(** A tick with the channel at hand: the accessor, then the loop. *)
Lemma check_news_run : forall channel now now_cache net g,
  globals_ok g ->
  check_news from_ical strftime_display (Some channel) now now_cache net g
  = match get_red_news from_ical now_cache net g with
    | (Return events, g1, t1) =>
        (Return tt, g1, t1 ++ flat_map (alert_effects strftime_display channel now) events)
    | (Raise e, g1, t1) => (Raise e, g1, t1)
    end.
Proof.
  intros channel now now_cache net g Hok. unfold check_news, bind.
  destruct (get_red_news_keeps_ok from_ical now_cache net g Hok) as [_ Haw].
  cbv zeta in Haw.
  destruct (get_red_news from_ical now_cache net g) as [[[events | e] g1] t1];
    [|reflexivity].
  rewrite check_loop_run by (apply Haw; reflexivity). reflexivity.
Qed.

(** The tick keeps the invariant. *)
Lemma check_news_keeps_ok : forall channel now now_cache net g,
  globals_ok g ->
  globals_ok (globals_after
                (check_news from_ical strftime_display channel now now_cache net g)).
Proof.
  intros [channel|] now now_cache net g Hok; [|exact Hok].
  rewrite check_news_run by assumption.
  destruct (get_red_news_keeps_ok from_ical now_cache net g Hok) as [Hok' _].
  cbv zeta in Hok'.
  destruct (get_red_news from_ical now_cache net g) as [[[events | e] g1] t1];
    exact Hok'.
Qed.


(** C8: a tick on which the channel is not found prints the warning and
    returns: it raises nothing, sends nothing, issues no request and
    leaves the globals as they were. *)
Theorem missing_channel_aborts_tick : forall now now_cache net g,
  outcome (check_news from_ical strftime_display None now now_cache net g) = Return tt
  /\ globals_after (check_news from_ical strftime_display None now now_cache net g) = g
  /\ trace (check_news from_ical strftime_display None now now_cache net g)
     = [Print WarnChannelNotFound]
  /\ sends (trace (check_news from_ical strftime_display None now now_cache net g)) = []
  /\ http_requests
       (trace (check_news from_ical strftime_display None now now_cache net g)) = [].
Proof. intros. repeat split. Qed.

End TickProperties.

(** ** The sort *)

Lemma insert_by_time_ok : forall e l,
  aware (fst e) ->
  Forall (fun ev : event => aware (fst ev)) l ->
  (forall y, In y l -> zones_agree (fst y) (fst e)) ->
  exists l',
    insert_by_time e l = Return l'
    /\ Permutation (e :: l) l'
    /\ (StronglySorted time_le l -> StronglySorted time_le l')
    /\ (forall k, filter (same_time k) l' = filter (same_time k) (e :: l)).
Proof.
  intros e l He Hl. induction Hl as [|y ys Hy Hys IH]; intros Hz.
  - exists [e]. repeat split; auto. intros _. repeat constructor.
  - cbn [insert_by_time].
    rewrite dt_lt_agree by (auto; apply Hz; now left). cbn [rbind].
    destruct (Z.ltb_spec (instant (fst y)) (instant (fst e))) as [Hlt | Hge].
    + destruct IH as [ys' [Hins [Hperm [Hsort Hstable]]]];
        [intros y' Hin; apply Hz; now right|].
      rewrite Hins.
      exists (y :: ys'). split; [reflexivity|]. split; [|split].
      * rewrite perm_swap. now apply perm_skip.
      * intros Hs. inversion Hs as [|? ? Hs' Hall]; subst.
        constructor; [auto|].
        apply (Permutation_Forall Hperm). constructor; [|assumption].
        unfold time_le. lia.
      * intros k. cbn [filter]. rewrite Hstable. cbn [filter].
        unfold same_time.
        destruct (Z.eqb_spec (instant (fst y)) k), (Z.eqb_spec (instant (fst e)) k);
          try reflexivity. lia.
    + exists (e :: y :: ys). repeat split; auto.
      intros Hs. constructor; [assumption|].
      inversion Hs as [|? ? Hs' Hall]; subst.
      constructor; [unfold time_le; lia|].
      eapply Forall_impl; [|exact Hall]. unfold time_le. intros ev H. lia.
Qed.

(** [sorted] on aware events of consistent zones: a stable ascending
    rearrangement. *)
Lemma sorted_by_time_ok : forall events,
  Forall (fun ev : event => aware (fst ev)) events ->
  consistent_zones events ->
  exists in_order,
    sorted_by_time events = Return in_order
    /\ Permutation events in_order
    /\ StronglySorted time_le in_order
    /\ (forall k, filter (same_time k) in_order = filter (same_time k) events).
Proof.
  intros events Haw. induction Haw as [|e rest He Hrest IH]; intros Hz.
  - exists []. repeat split; auto. constructor.
  - destruct IH as [sorted_rest [Hs [Hperm [Hsorted Hstable]]]].
    { intros a b Ha Hb. apply Hz; now right. }
    cbn [sorted_by_time]. rewrite Hs. cbn [rbind].
    destruct (insert_by_time_ok e sorted_rest He (Permutation_Forall Hperm Hrest))
      as [l' [Hins [Hperm' [Hsort' Hstable']]]].
    { intros y Hin. apply Hz; [right | now left].
      apply (Permutation_in _ (Permutation_sym Hperm) Hin). }
    exists l'. split; [exact Hins|]. split; [|split].
    + rewrite <- Hperm'. now apply perm_skip.
    + auto.
    + intros k. rewrite Hstable'. cbn [filter]. now rewrite Hstable.
Qed.

(** On aware events [sorted] raises nothing, whatever the zones. *)
Lemma insert_by_time_returns : forall e l,
  aware (fst e) ->
  Forall (fun ev : event => aware (fst ev)) l ->
  exists l', insert_by_time e l = Return l' /\ Permutation (e :: l) l'.
Proof.
  intros e l He Hl. induction Hl as [|y ys Hy Hys IH].
  - exists [e]. auto.
  - cbn [insert_by_time]. unfold dt_lt.
    destruct (tzinfo (fst y)) as [ty|] eqn:Ey; [|now elim Hy].
    destruct (tzinfo (fst e)) as [te|] eqn:Ee; [|now elim He].
    destruct IH as [ys' [Hins Hperm]].
    assert (Hcase : forall before : bool,
      exists l',
        (if before
         then rbind (insert_by_time e ys) (fun ys' => Return (y :: ys'))
         else Return (e :: y :: ys)) = Return l'
        /\ Permutation (e :: y :: ys) l').
    { intros [|].
      - rewrite Hins. exists (y :: ys'). split; [reflexivity|].
        rewrite perm_swap. now apply perm_skip.
      - exists (e :: y :: ys). auto. }
    destruct (same_object ty te); cbn [rbind]; apply Hcase.
Qed.

Lemma sorted_by_time_returns : forall events,
  Forall (fun ev : event => aware (fst ev)) events ->
  exists in_order,
    sorted_by_time events = Return in_order /\ Permutation events in_order.
Proof.
  intros events Haw. induction Haw as [|e rest He Hrest IH].
  - exists []. auto.
  - destruct IH as [sorted_rest [Hs Hperm]].
    cbn [sorted_by_time]. rewrite Hs. cbn [rbind].
    destruct (insert_by_time_returns e sorted_rest He (Permutation_Forall Hperm Hrest))
      as [l' [Hins Hperm']].
    exists l'. split; [exact Hins|]. rewrite <- Hperm'. now apply perm_skip.
Qed.

(** ** The command *)

Section CommandProperties.

Variable from_ical : string -> exception + component.
Variable strftime_display : datetime -> string.

Lemma reply_lines_spec : forall events,
  reply_lines strftime_display events
  = if existsb (fun ev : event => astimezone_display_overflows (fst ev)) events
    then Raise date_out_of_range
    else Return (map (reply_line strftime_display) events).
Proof.
  induction events as [|ev rest IH]; [reflexivity|].
  cbn [reply_lines existsb map].
  destruct (astimezone_display_overflows (fst ev)); [reflexivity|].
  rewrite IH. cbn [orb]. now destruct (existsb _ rest).
Qed.

Lemma answer_nextnews_run : forall msg now net g,
  answer_nextnews from_ical strftime_display msg now net g
  = match get_red_news from_ical now net g with
    | (Return [], g1, t1) =>
        (Return tt, g1, t1 ++ [ChannelSend (channel_id msg) no_news_message])
    | (Return (ev :: rest), g1, t1) =>
        match next_events (ev :: rest) with
        | Return shown =>
            if existsb (fun ev : event => astimezone_display_overflows (fst ev)) shown
            then (Raise date_out_of_range, g1, t1 ++ [])
            else (Return tt, g1,
                  t1 ++ [ChannelSend (channel_id msg)
                           (reply_message strftime_display shown)])
        | Raise e => (Raise e, g1, t1 ++ [])
        end
    | (Raise e, g1, t1) => (Raise e, g1, t1)
    end.
Proof.
  intros msg now net g. unfold answer_nextnews, bind.
  destruct (get_red_news from_ical now net g) as [[[[|ev rest] | e] g1] t1];
    try reflexivity.
  unfold lift, emit. destruct (next_events (ev :: rest)) as [shown | e];
    [|reflexivity].
  rewrite reply_lines_spec.
  destruct (existsb _ shown); reflexivity.
Qed.

(** The handler keeps the invariant. *)
Lemma on_message_keeps_ok : forall client_user msg now net g,
  globals_ok g ->
  globals_ok (globals_after
                (on_message from_ical strftime_display client_user msg now net g)).
Proof.
  intros client_user msg now net g Hok. unfold on_message.
  destruct (author msg =? client_user); [exact Hok|].
  destruct (negb (channel_id msg =? CHANNEL_ID)); [exact Hok|].
  destruct (PyStr.startswith (PyStr.lower (content msg)) "!nextnews"); [|exact Hok].
  rewrite answer_nextnews_run.
  destruct (get_red_news_keeps_ok from_ical now net g Hok) as [Hok' _].
  cbv zeta in Hok'.
  destruct (get_red_news from_ical now net g) as [[[[|ev rest] | e] g1] t1];
    try exact Hok'.
  destruct (next_events (ev :: rest)) as [shown | e]; [|exact Hok'].
  destruct (existsb _ shown); exact Hok'.
Qed.

Lemma in_firstn : forall (n : nat) (l : list event) ev, In ev (firstn n l) -> In ev l.
Proof.
  intros n l ev Hin. rewrite <- (firstn_skipn n l). apply in_or_app. now left.
Qed.

(** C6, as the code has it: the answer to the command reads the cache
    through [get_red_news], as the tick does; when that returns no event
    it says so; otherwise, when no tzinfo object gives two of the events
    two offsets, it takes the first three of the events in a stable
    ascending order of their instants, and replies with them when each of
    the three can be converted to the display zone (it raises the
    OverflowError of the conversion otherwise).  Events at +1h, +3h, +2h
    are shown as +1h, +2h, +3h. *)
Theorem nextnews_shows_first_three : forall msg now net g,
  globals_ok g ->
  globals_after (answer_nextnews from_ical strftime_display msg now net g)
  = globals_after (get_red_news from_ical now net g)
  /\ http_requests (trace (answer_nextnews from_ical strftime_display msg now net g))
     = http_requests (trace (get_red_news from_ical now net g))
  /\ match outcome (get_red_news from_ical now net g) with
     | Raise e =>
         outcome (answer_nextnews from_ical strftime_display msg now net g) = Raise e
         /\ sends (trace (answer_nextnews from_ical strftime_display msg now net g)) = []
     | Return [] =>
         outcome (answer_nextnews from_ical strftime_display msg now net g) = Return tt
         /\ sends (trace (answer_nextnews from_ical strftime_display msg now net g))
            = [(channel_id msg, no_news_message)]
     | Return events =>
         consistent_zones events ->
         exists in_order,
           sorted_by_time events = Return in_order
           /\ Permutation events in_order
           /\ StronglySorted time_le in_order
           /\ (forall k, filter (same_time k) in_order = filter (same_time k) events)
           /\ next_events events = Return (firstn 3 in_order)
           /\ (existsb (fun ev : event => astimezone_display_overflows (fst ev))
                 (firstn 3 in_order) = false ->
               outcome (answer_nextnews from_ical strftime_display msg now net g)
               = Return tt
               /\ sends (trace (answer_nextnews from_ical strftime_display msg now net g))
                  = [(channel_id msg,
                      reply_message strftime_display (firstn 3 in_order))])
           /\ (existsb (fun ev : event => astimezone_display_overflows (fst ev))
                 (firstn 3 in_order) = true ->
               outcome (answer_nextnews from_ical strftime_display msg now net g)
               = Raise date_out_of_range
               /\ sends (trace (answer_nextnews from_ical strftime_display msg now net g))
                  = [])
     end
  /\ (forall tick_channel tick_now,
        globals_after (check_news from_ical strftime_display (Some tick_channel)
                         tick_now now net g)
        = globals_after (get_red_news from_ical now net g)
        /\ http_requests (trace (check_news from_ical strftime_display
                                   (Some tick_channel) tick_now now net g))
           = http_requests (trace (get_red_news from_ical now net g)))
  /\ next_events [Sample.ev_1h; Sample.ev_3h; Sample.ev_2h]
     = Return [Sample.ev_1h; Sample.ev_2h; Sample.ev_3h].
Proof.
  intros msg now net g Hok.
  pose proof (get_red_news_sends from_ical now net g Hok) as Hs.
  destruct (get_red_news_keeps_ok from_ical now net g Hok) as [_ Haw].
  cbv zeta in Haw.
  assert (Htick : forall tick_channel tick_now,
    globals_after (check_news from_ical strftime_display (Some tick_channel)
                     tick_now now net g)
    = globals_after (get_red_news from_ical now net g)
    /\ http_requests (trace (check_news from_ical strftime_display
                               (Some tick_channel) tick_now now net g))
       = http_requests (trace (get_red_news from_ical now net g))).
  { intros tick_channel tick_now. rewrite check_news_run by assumption.
    destruct (get_red_news from_ical now net g) as [[[events | e] g1] t1];
      unfold globals_after, trace; cbn [fst snd]; [|auto].
    rewrite http_requests_app, http_requests_alert_effects, app_nil_r. auto. }
  rewrite answer_nextnews_run.
  destruct (get_red_news from_ical now net g) as [[[[|ev rest] | e] g1] t1];
    unfold outcome, globals_after, trace in *; cbn [fst snd] in *.
  - rewrite http_requests_app, sends_app, Hs. cbn.
    rewrite app_nil_r. repeat split; auto; apply Htick.
  - assert (Hshape : forall shown,
      next_events (ev :: rest) = Return shown ->
      snd (fst (match next_events (ev :: rest) with
                | Return shown0 =>
                    if existsb (fun ev0 : event =>
                                  astimezone_display_overflows (fst ev0)) shown0
                    then (Raise date_out_of_range, g1, t1 ++ [])
                    else (Return tt, g1,
                          t1 ++ [ChannelSend (channel_id msg)
                                   (reply_message strftime_display shown0)])
                | Raise e => (Raise e, g1, t1 ++ [])
                end)) = g1
      /\ http_requests
           (snd (match next_events (ev :: rest) with
                 | Return shown0 =>
                     if existsb (fun ev0 : event =>
                                   astimezone_display_overflows (fst ev0)) shown0
                     then (Raise date_out_of_range, g1, t1 ++ [])
                     else (Return tt, g1,
                           t1 ++ [ChannelSend (channel_id msg)
                                    (reply_message strftime_display shown0)])
                 | Raise e => (Raise e, g1, t1 ++ [])
                 end)) = http_requests t1).
    { intros shown ->. destruct (existsb _ shown); cbn [fst snd];
        rewrite http_requests_app; cbn; now rewrite app_nil_r. }
    destruct (sorted_by_time_returns (ev :: rest) (Haw _ eq_refl))
      as [some_order [Hsome _]].
    destruct (Hshape (firstn 3 some_order)) as [Hg Hh];
      [unfold next_events; now rewrite Hsome|].
    split; [exact Hg|]. split; [exact Hh|].
    split; [|split; [apply Htick | reflexivity]].
    intros Hz.
    destruct (sorted_by_time_ok (ev :: rest) (Haw _ eq_refl) Hz)
      as [in_order [Hsort [Hperm [Hsorted Hstable]]]].
    assert (Hnext : next_events (ev :: rest) = Return (firstn 3 in_order)).
    { unfold next_events. now rewrite Hsort. }
    exists in_order. rewrite Hnext.
    split; [exact Hsort|]. split; [exact Hperm|]. split; [exact Hsorted|].
    split; [exact Hstable|]. split; [reflexivity|]. split.
    + intros ->. cbn [fst snd]. rewrite sends_app, Hs. split; reflexivity.
    + intros ->. cbn [fst snd]. rewrite app_nil_r. split; [reflexivity | exact Hs].
  - repeat split; auto; apply Htick.
Qed.

(** C10: a message that is not the bot's own, in the alert channel, is
    answered exactly when its lower-cased content starts with
    [!nextnews], whatever follows the command word and whatever the case
    of its letters: then the handler runs [get_red_news] and, when that
    returns events that can all be converted to the display zone (or
    none), sends one reply to the channel; otherwise the handler does
    nothing. *)
Theorem command_is_prefix_match : forall client_user msg now net g,
  author msg <> client_user ->
  channel_id msg = CHANNEL_ID ->
  (PyStr.startswith (PyStr.lower (content msg)) "!nextnews" = true ->
   on_message from_ical strftime_display client_user msg now net g
   = answer_nextnews from_ical strftime_display msg now net g
   /\ (exists t,
         trace (on_message from_ical strftime_display client_user msg now net g)
         = trace (get_red_news from_ical now net g) ++ t)
   /\ (globals_ok g ->
       forall events,
         outcome (get_red_news from_ical now net g) = Return events ->
         Forall (fun ev : event => astimezone_display_overflows (fst ev) = false)
           events ->
         exists reply,
           outcome (on_message from_ical strftime_display client_user msg now net g)
           = Return tt
           /\ sends (trace (on_message from_ical strftime_display client_user msg
                              now net g))
              = [(CHANNEL_ID, reply)]))
  /\ (PyStr.startswith (PyStr.lower (content msg)) "!nextnews" = false ->
      on_message from_ical strftime_display client_user msg now net g
      = (Return tt, g, []))
  /\ (forall command trailing,
        PyStr.lower command = "!nextnews"%string ->
        PyStr.startswith (PyStr.lower (command ++ trailing)) "!nextnews" = true).
Proof.
  intros client_user msg now net g Hauthor Hchannel.
  assert (Hrun : forall recognised,
            PyStr.startswith (PyStr.lower (content msg)) "!nextnews" = recognised ->
            on_message from_ical strftime_display client_user msg now net g
            = if recognised
              then answer_nextnews from_ical strftime_display msg now net g
              else (Return tt, g, [])).
  { intros recognised Hcmd. unfold on_message.
    rewrite (proj2 (Z.eqb_neq _ _) Hauthor), (proj2 (Z.eqb_eq _ _) Hchannel).
    cbn [negb]. rewrite Hcmd. now destruct recognised. }
  split; [|split].
  - intros Hcmd. rewrite (Hrun true Hcmd). split; [reflexivity|]. split.
    + rewrite answer_nextnews_run.
      destruct (get_red_news from_ical now net g) as [[[[|ev rest] | e] g1] t1];
        unfold trace; cbn [fst snd]; eauto.
      * destruct (next_events (ev :: rest)) as [shown | e]; cbn [snd]; eauto.
        destruct (existsb _ shown); cbn [snd]; eauto.
      * exists []. now rewrite app_nil_r.
    + intros Hok events Hret Hshow. rewrite <- Hchannel, answer_nextnews_run.
      pose proof (get_red_news_sends from_ical now net g Hok) as Hs.
      destruct (get_red_news_keeps_ok from_ical now net g Hok) as [_ Haw].
      cbv zeta in Haw.
      destruct (get_red_news from_ical now net g) as [[[[|ev rest] | e] g1] t1];
        unfold outcome, trace in *; cbn [fst snd] in *; [| |discriminate].
      * rewrite sends_app, Hs. eexists. split; reflexivity.
      * injection Hret as <-.
        destruct (sorted_by_time_returns (ev :: rest) (Haw _ eq_refl))
          as [in_order [Hsort Hperm]].
        unfold next_events. rewrite Hsort. cbn [rbind].
        assert (Hnone : existsb (fun ev0 : event =>
                                   astimezone_display_overflows (fst ev0))
                          (firstn 3 in_order) = false).
        { apply existsb_false_Forall, Forall_forall. intros ev0 Hin.
          apply in_firstn in Hin.
          apply (Permutation_in _ (Permutation_sym Hperm)) in Hin.
          rewrite Forall_forall in Hshow. now apply Hshow. }
        rewrite Hnone. cbn [fst snd]. rewrite sends_app, Hs.
        eexists. split; reflexivity.
  - intros Hcmd. exact (Hrun false Hcmd).
  - intros command trailing Hlow. rewrite lower_append, Hlow.
    apply startswith_append.
Qed.

End CommandProperties.

(** * The properties on the sample data *)

Ltac sample_globals_ok :=
  split;
  [ intros last_fetch H; injection H as <-; unfold aware; simpl; discriminate
  | repeat constructor; unfold aware; simpl; discriminate ].

Lemma sample_cache_ok : globals_ok Sample.cache.
Proof. sample_globals_ok. Defined.



Lemma failed_refresh_serves_stale_witness :
  globals_ok Sample.cache
  /\ failed_refresh Sample.from_ical (Response 429 "") = true
  /\ outcome (get_red_news Sample.from_ical (20 * Sample.minute) (Response 429 "")
                Sample.cache)
     = Return [Sample.ev_1h; Sample.ev_3h; Sample.ev_2h]
  /\ globals_after (get_red_news Sample.from_ical (20 * Sample.minute)
                      (Response 429 "") Sample.cache)
     = Sample.cache.
Proof.
  split; [exact sample_cache_ok|]. split; [reflexivity|].
  destruct (failed_refresh_serves_stale Sample.from_ical (20 * Sample.minute)
              (Response 429 "") Sample.cache sample_cache_ok eq_refl) as [Ho [Hg _]].
  split; [exact Ho | exact Hg].
Defined.

Lemma fresh_cache_skips_fetch_witness :
  globals_ok Sample.cache
  /\ http_requests (trace (get_red_news Sample.from_ical (15 * Sample.minute - 1)
                             Sample.timed_out Sample.cache)) = []
  /\ http_requests (trace (get_red_news Sample.from_ical (15 * Sample.minute)
                             Sample.timed_out Sample.cache))
     = [HttpGet FOREX_ICS 10 "ForexNewsBot/1.0"].
Proof.
  split; [exact sample_cache_ok|]. split.
  - destruct (fresh_cache_skips_fetch Sample.from_ical (15 * Sample.minute - 1)
                Sample.timed_out Sample.cache sample_cache_ok) as [H _].
    apply (H (Sample.at_utc 0)); [reflexivity | vm_compute; reflexivity].
  - destruct (fresh_cache_skips_fetch Sample.from_ical (15 * Sample.minute)
                Sample.timed_out Sample.cache sample_cache_ok) as [_ [H _]].
    apply (H (Sample.at_utc 0)); [reflexivity | vm_compute; discriminate].
Defined.

Lemma normalize_only_high_impact_witness :
  normalize (datetime_now UTC 0) Sample.calendar
  = normalize_loop (datetime_now UTC 0)
      [Sample.nfp; Sample.cpi; Sample.past; Sample.holiday] [].
Proof.
  exact (proj2 (normalize_only_high_impact 0 Sample.calendar)).
Defined.

Lemma normalize_future_only_witness :
  (forall c, In c (walk Sample.calendar) -> qualifies c = true -> DTSTART c <> None)
  /\ exists events,
       normalize (datetime_now UTC 0) Sample.calendar = Return events
       /\ (forall ev, In ev events -> 0 < instant (fst ev))
       /\ In (Sample.at_utc (10 * Sample.minute), "NFP"%string) events
       /\ ~ In (Sample.at_utc 0, "Past"%string) events.
Proof.
  assert (H : forall c, In c (walk Sample.calendar) ->
                        qualifies c = true -> DTSTART c <> None).
  { intros c Hin Hq. simpl in Hin.
    repeat (destruct Hin as [<- | Hin]; [try discriminate Hq; simpl; discriminate|]).
    destruct Hin. }
  split; [exact H|].
  destruct (normalize_future_only 0 Sample.calendar H)
    as [events [Hn [Hfuture [Hkept _]]]].
  exists events. split; [exact Hn|]. split; [exact Hfuture|]. split.
  - apply (Hkept Sample.nfp (DtDatetime (Sample.at_utc (10 * Sample.minute)))).
    + simpl. auto.
    + reflexivity.
    + reflexivity.
    + vm_compute. reflexivity.
  - intros Hin. apply Hfuture in Hin. vm_compute in Hin. discriminate Hin.
Defined.

Lemma event_time_is_aware_witness :
  event_time_of (DtDatetime {| wall := 3 * Sample.hour; tzinfo := None |})
  = {| wall := 3 * Sample.hour; tzinfo := Some UTC |}.
Proof.
  apply (proj1 (proj2 event_time_is_aware)). reflexivity.
Defined.

Lemma returned_events_are_the_cache_witness :
  globals_ok Sample.cache
  /\ cache_fresh (20 * Sample.minute) Sample.cache = false
  /\ outcome (get_red_news Sample.from_ical (20 * Sample.minute)
                (Response 200 "BEGIN:VCALENDAR") Sample.cache)
     = Return [ (Sample.at_utc (3 * Sample.hour), "CPI"%string);
                (Sample.at_utc 86400000000, "Holiday"%string) ]
  /\ CACHED_EVENTS
       (globals_after (get_red_news Sample.from_ical (20 * Sample.minute)
                         (Response 200 "BEGIN:VCALENDAR") Sample.cache))
     = [ (Sample.at_utc (3 * Sample.hour), "CPI"%string);
         (Sample.at_utc 86400000000, "Holiday"%string) ].
Proof.
  split; [exact sample_cache_ok|]. split; [reflexivity|].
  destruct (proj2 (returned_events_are_the_cache Sample.from_ical
                     (20 * Sample.minute) (Response 200 "BEGIN:VCALENDAR")
                     Sample.cache) sample_cache_ok) as [_ [_ H]].
  destruct (H 200 "BEGIN:VCALENDAR"%string Sample.calendar
              [ (Sample.at_utc (3 * Sample.hour), "CPI"%string);
                (Sample.at_utc 86400000000, "Holiday"%string) ]
              eq_refl eq_refl eq_refl eq_refl eq_refl
              ltac:(repeat constructor)) as [Ho [Hc _]].
  split; [exact Ho | exact Hc].
Defined.

Ltac sample_zones :=
  intros a b Ha Hb; simpl in Ha, Hb;
  repeat (destruct Ha as [<- | Ha]; [|]);
  try (now destruct Ha);
  repeat (destruct Hb as [<- | Hb]; [|]);
  try (now destruct Hb);
  unfold zones_agree; simpl; intros _; reflexivity.

Lemma sample_cache_zones : consistent_zones (CACHED_EVENTS Sample.cache).
Proof. sample_zones. Defined.

Lemma nextnews_shows_first_three_witness :
  globals_ok Sample.cache
  /\ consistent_zones [Sample.ev_1h; Sample.ev_3h; Sample.ev_2h]
  /\ sends (trace (answer_nextnews Sample.from_ical Sample.strftime_display
                     Sample.command 0 Sample.timed_out Sample.cache))
     = [ (CHANNEL_ID,
          reply_message Sample.strftime_display
            [Sample.ev_1h; Sample.ev_2h; Sample.ev_3h]) ].
Proof.
  split; [exact sample_cache_ok|]. split; [exact sample_cache_zones|].
  destruct (nextnews_shows_first_three Sample.from_ical Sample.strftime_display
              Sample.command 0 Sample.timed_out Sample.cache sample_cache_ok)
    as [_ [_ [H _]]].
  destruct (H sample_cache_zones)
    as [in_order [Hsort [_ [_ [_ [_ [Hshow _]]]]]]].
  vm_compute in Hsort. injection Hsort as <-.
  exact (proj2 (Hshow eq_refl)).
Defined.

Lemma command_is_prefix_match_witness :
  author Sample.command <> 1
  /\ channel_id Sample.command = CHANNEL_ID
  /\ PyStr.startswith (PyStr.lower "!NextNews please") "!nextnews" = true
  /\ on_message Sample.from_ical Sample.strftime_display 1 Sample.command 0
       Sample.timed_out Sample.cache
     = answer_nextnews Sample.from_ical Sample.strftime_display Sample.command 0
         Sample.timed_out Sample.cache
  /\ PyStr.startswith (PyStr.lower "what is !nextnews") "!nextnews" = false
  /\ on_message Sample.from_ical Sample.strftime_display 1 MoreSample.chatter 0
       Sample.timed_out Sample.cache
     = (Return tt, Sample.cache, []).
Proof.
  assert (Ha : author Sample.command <> 1) by (simpl; discriminate).
  assert (Hb : author MoreSample.chatter <> 1) by (simpl; discriminate).
  split; [exact Ha|]. split; [reflexivity|]. split; [reflexivity|]. split.
  - exact (proj1 (proj1 (command_is_prefix_match Sample.from_ical
                           Sample.strftime_display 1 Sample.command 0
                           Sample.timed_out Sample.cache Ha eq_refl)
                    eq_refl)).
  - split; [reflexivity|].
    exact (proj1 (proj2 (command_is_prefix_match Sample.from_ical
                           Sample.strftime_display 1 MoreSample.chatter 0
                           Sample.timed_out Sample.cache Hb eq_refl))
             eq_refl).
Defined.

(** With a status outside 400 to 599 and other than 429, here 300, and a
    body that parses, the refresh replaces the cache and stamps
    [LAST_FETCH]: the claim C2 has it serve the stored events there. *)
Lemma other_status_replaces_the_cache :
  raise_for_status 300 = false
  /\ outcome (get_red_news Sample.from_ical (20 * Sample.minute)
                (Response 300 "BEGIN:VCALENDAR") Sample.cache)
     = Return [ (Sample.at_utc (3 * Sample.hour), "CPI"%string);
                (Sample.at_utc 86400000000, "Holiday"%string) ]
  /\ outcome (get_red_news Sample.from_ical (20 * Sample.minute)
                (Response 300 "BEGIN:VCALENDAR") Sample.cache)
     <> Return (CACHED_EVENTS Sample.cache)
  /\ LAST_FETCH (globals_after
                   (get_red_news Sample.from_ical (20 * Sample.minute)
                      (Response 300 "BEGIN:VCALENDAR") Sample.cache))
     = Some (datetime_now UTC (20 * Sample.minute))
  /\ globals_after (get_red_news Sample.from_ical (20 * Sample.minute)
                      (Response 300 "BEGIN:VCALENDAR") Sample.cache)
     <> Sample.cache.
Proof.
  split; [reflexivity|]. split; [reflexivity|]. split.
  - intros H. vm_compute in H. discriminate H.
  - split; [reflexivity|]. intros H. vm_compute in H. discriminate H.
Qed.

(** The code shows three events where the claim C6 has it show the first
    two of the events at +1h, +3h, +2h; and two events of one tzinfo
    object are ordered by their fields, not by their instants: the one at
    02:30 with offset -5h (07:30 UTC) comes before the one at 03:15 with
    offset -4h (07:15 UTC). *)
Lemma next_events_shows_three_not_two :
  next_events [Sample.ev_1h; Sample.ev_3h; Sample.ev_2h]
  = Return [Sample.ev_1h; Sample.ev_2h; Sample.ev_3h]
  /\ next_events [Sample.ev_1h; Sample.ev_3h; Sample.ev_2h]
     <> Return (firstn 2 [Sample.ev_1h; Sample.ev_2h; Sample.ev_3h])
  /\ next_events [MoreSample.ev_gap; MoreSample.ev_after]
     = Return [MoreSample.ev_gap; MoreSample.ev_after]
  /\ instant (fst MoreSample.ev_after) < instant (fst MoreSample.ev_gap).
Proof.
  split; [reflexivity|]. split.
  - intros H. vm_compute in H. discriminate H.
  - split; reflexivity.
Qed.

(** * Further properties *)

(** ** The normaliser: order, multiplicity and documents without events *)

Lemma qualifies_markers : forall c,
  qualifies c
  = String.eqb (name c) "VEVENT"
    && (PyStr.str_in "Impact: High" (description_of c)
        || PyStr.str_in "High Impact Expected" (description_of c)).
Proof.
  intros c. unfold qualifies, lacks_markers, MARKER_IMPACT_HIGH,
    MARKER_HIGH_IMPACT_EXPECTED.
  now rewrite negb_andb, !negb_involutive.
Qed.

Lemma contribution_one_per_kept : forall now components,
  Forall2
    (fun c ev =>
       exists start, DTSTART c = Some start
                     /\ ev = (event_time_of start, summary_of c))
    (filter (fun c =>
               String.eqb (name c) "VEVENT"
               && (PyStr.str_in "Impact: High" (description_of c)
                   || PyStr.str_in "High Impact Expected" (description_of c))
               && match DTSTART c with
                  | Some start => now <? instant (event_time_of start)
                  | None => false
                  end)
       components)
    (flat_map (contribution now) components).
Proof.
  intros now components. induction components as [|c rest IH]; [constructor|].
  cbn [filter flat_map]. rewrite <- qualifies_markers. unfold contribution at 1.
  destruct (qualifies c); cbn [andb]; [|exact IH].
  destruct (DTSTART c) as [start|] eqn:Hs; [|exact IH].
  destruct (now <? instant (event_time_of start)); [|exact IH].
  constructor; [|exact IH]. exists start. auto.
Qed.

(** X1: the events [normalize] returns are, in the order of the document,
    one event for each marked VEVENT whose start lies after [now], made of
    its normalised start and its summary. *)
Theorem normalize_one_event_per_record_in_order : forall now cal events,
  normalize (datetime_now UTC now) cal = Return events ->
  Forall2
    (fun c ev =>
       exists start, DTSTART c = Some start
                     /\ ev = (event_time_of start, summary_of c))
    (filter (fun c =>
               String.eqb (name c) "VEVENT"
               && (PyStr.str_in "Impact: High" (description_of c)
                   || PyStr.str_in "High Impact Expected" (description_of c))
               && match DTSTART c with
                  | Some start => now <? instant (event_time_of start)
                  | None => false
                  end)
       (walk cal))
    events.
Proof.
  intros now cal events Hn.
  destruct (normalize_cases now cal) as [[_ Hr] | [_ Hr]]; rewrite Hr in Hn;
    [|discriminate].
  injection Hn as <-. apply contribution_one_per_kept.
Qed.

(** X2: a document without a marked VEVENT (every component is of
    another type, or its description, the empty one when DESCRIPTION is
    missing, has neither marker) normalises to the empty list; a missing
    DTSTART does not matter there, it is never read. *)
Theorem normalize_without_marked_events : forall now cal,
  (forall c, In c (walk cal) ->
             name c <> "VEVENT"%string
             \/ (PyStr.str_in "Impact: High" (description_of c) = false
                 /\ PyStr.str_in "High Impact Expected" (description_of c) = false)) ->
  normalize (datetime_now UTC now) cal = Return [].
Proof.
  intros now cal Hall. unfold normalize. rewrite normalize_loop_spec.
  assert (Hq : forall c, In c (walk cal) -> qualifies c = false).
  { intros c Hin. rewrite qualifies_markers. destruct (Hall c Hin) as [Hn | [H1 H2]].
    - apply String.eqb_neq in Hn. now rewrite Hn.
    - rewrite H1, H2. apply andb_false_r. }
  assert (Hm : existsb missing_dtstart (walk cal) = false).
  { destruct (existsb missing_dtstart (walk cal)) eqn:E; [|reflexivity].
    apply existsb_exists in E. destruct E as [c [Hin Hc]].
    unfold missing_dtstart in Hc. now rewrite (Hq c Hin) in Hc. }
  rewrite Hm. f_equal. cbn [app]. clear Hm Hall.
  induction (walk cal) as [|c rest IH]; [reflexivity|].
  cbn [flat_map]. unfold contribution at 1. rewrite (Hq c) by (now left).
  apply IH. intros c' Hin. apply Hq. now right.
Qed.

(** ** The cache: a broken record, a refresh followed by a hit, retries *)

Section MoreCacheProperties.

Variable from_ical : string -> exception + component.
Variable strftime_display : datetime -> string.

Lemma get_red_news_stale : forall now net g,
  globals_ok g -> cache_fresh now g = false ->
  get_red_news from_ical now net g = refresh from_ical (datetime_now UTC now) net g.
Proof.
  intros now net g Hok Hstale. rewrite get_red_news_run by assumption.
  now rewrite Hstale.
Qed.

Lemma get_red_news_hit : forall now net g,
  globals_ok g -> cache_fresh now g = true ->
  outcome (get_red_news from_ical now net g) = Return (CACHED_EVENTS g)
  /\ globals_after (get_red_news from_ical now net g) = g
  /\ http_requests (trace (get_red_news from_ical now net g)) = [].
Proof.
  intros now net g Hok Hfresh. rewrite get_red_news_run by assumption.
  rewrite Hfresh. unfold cache_fresh in Hfresh.
  destruct (LAST_FETCH g); [|discriminate]. repeat split.
Qed.

Lemma missing_dtstart_raises : forall now cal c,
  In c (walk cal) -> qualifies c = true -> DTSTART c = None ->
  normalize (datetime_now UTC now) cal = Raise none_has_no_dt.
Proof.
  intros now cal c Hin Hq Hd.
  destruct (normalize_cases now cal) as [[Hm _] | [_ Hr]]; [|exact Hr].
  assert (He : existsb missing_dtstart (walk cal) = true).
  { apply existsb_exists. exists c. split; [exact Hin|].
    unfold missing_dtstart. now rewrite Hq, Hd. }
  congruence.
Qed.

(** X3: when a refresh is due and the body parses, one marked VEVENT
    without DTSTART makes [get_red_news] raise the AttributeError after the
    request was issued; the globals stay as they were, so no part of the
    document reaches the cache; the tick then sends no alert and the
    command no reply, and both raise. *)
Theorem broken_record_aborts_refresh :
  forall now status_code text cal c g,
    globals_ok g ->
    cache_fresh now g = false ->
    failed_refresh from_ical (Response status_code text) = false ->
    from_ical text = inr cal ->
    In c (walk cal) -> qualifies c = true -> DTSTART c = None ->
    get_red_news from_ical now (Response status_code text) g
    = (Raise none_has_no_dt, g,
       [Print DebugRefreshing; HttpGet FOREX_ICS 10 "ForexNewsBot/1.0"])
    /\ (forall channel tick_now,
          outcome (check_news from_ical strftime_display (Some channel) tick_now now
                     (Response status_code text) g) = Raise none_has_no_dt
          /\ globals_after (check_news from_ical strftime_display (Some channel)
                              tick_now now (Response status_code text) g) = g
          /\ sends (trace (check_news from_ical strftime_display (Some channel)
                             tick_now now (Response status_code text) g)) = [])
    /\ (forall msg,
          outcome (answer_nextnews from_ical strftime_display msg now
                     (Response status_code text) g) = Raise none_has_no_dt
          /\ globals_after (answer_nextnews from_ical strftime_display msg now
                              (Response status_code text) g) = g
          /\ sends (trace (answer_nextnews from_ical strftime_display msg now
                             (Response status_code text) g)) = []).
Proof.
  intros now status_code text cal c g Hok Hstale Hf Hp Hin Hq Hd.
  assert (Hrun : get_red_news from_ical now (Response status_code text) g
                 = (Raise none_has_no_dt, g, [Print DebugRefreshing; the_request])).
  { rewrite get_red_news_stale by assumption.
    pose proof (refresh_parsed from_ical (datetime_now UTC now) status_code text
                  cal g Hf Hp) as Hr.
    now rewrite (missing_dtstart_raises now cal c Hin Hq Hd) in Hr. }
  split; [exact Hrun|]. split.
  - intros channel tick_now. rewrite check_news_run by assumption.
    rewrite Hrun. repeat split.
  - intros msg. rewrite answer_nextnews_run, Hrun. repeat split.
Qed.

(** X4: when a refresh is due, the response is good and [normalize]
    returns, [get_red_news] stores these events with [LAST_FETCH] set to
    [now], whatever the cache held before, and returns them, unless the
    conversion of one of the first five for the log raises: then the call
    raises the OverflowError with the cache already replaced.  Either
    way a call less than 15 minutes later returns the stored events
    without a request, whatever the network would answer, and a call 15
    minutes later or more issues the request again. *)
Theorem refresh_then_hit :
  forall now status_code text cal events g,
    globals_ok g ->
    cache_fresh now g = false ->
    failed_refresh from_ical (Response status_code text) = false ->
    from_ical text = inr cal ->
    normalize (datetime_now UTC now) cal = Return events ->
    outcome (get_red_news from_ical now (Response status_code text) g)
    = (if existsb (fun ev : event => astimezone_display_overflows (fst ev))
            (firstn 5 events)
       then Raise date_out_of_range else Return events)
    /\ globals_after (get_red_news from_ical now (Response status_code text) g)
       = {| LAST_FETCH := Some (datetime_now UTC now); CACHED_EVENTS := events |}
    /\ (forall later net,
          later - now < 15 * 60 * 1000000 ->
          outcome (get_red_news from_ical later net
                     (globals_after (get_red_news from_ical now
                                       (Response status_code text) g)))
          = Return events
          /\ globals_after (get_red_news from_ical later net
                              (globals_after (get_red_news from_ical now
                                                (Response status_code text) g)))
             = {| LAST_FETCH := Some (datetime_now UTC now); CACHED_EVENTS := events |}
          /\ http_requests
               (trace (get_red_news from_ical later net
                         (globals_after (get_red_news from_ical now
                                           (Response status_code text) g)))) = [])
    /\ (forall later net,
          15 * 60 * 1000000 <= later - now ->
          http_requests
            (trace (get_red_news from_ical later net
                      (globals_after (get_red_news from_ical now
                                        (Response status_code text) g))))
          = [HttpGet FOREX_ICS 10 "ForexNewsBot/1.0"]).
Proof.
  intros now status_code text cal events g Hok Hstale Hf Hp Hn.
  pose proof (refresh_parsed from_ical (datetime_now UTC now) status_code text
                cal g Hf Hp) as Hr.
  rewrite Hn in Hr. destruct Hr as [lines Hr].
  rewrite get_red_news_stale by assumption. rewrite Hr.
  unfold outcome at 1, globals_after. cbn [fst snd].
  set (g' := {| LAST_FETCH := Some (datetime_now UTC now); CACHED_EVENTS := events |}).
  assert (Hok' : globals_ok g').
  { split; cbn.
    - intros lf H. injection H as <-. apply aware_now.
    - exact (normalize_returns_aware now cal events Hn). }
  assert (Hfresh : forall later,
            cache_fresh later g' = (later - now <? 15 * 60 * 1000000)).
  { intros later. unfold cache_fresh, g'. cbn [LAST_FETCH]. now rewrite instant_now. }
  split; [reflexivity|]. split; [reflexivity|]. split.
  - intros later net Hlt.
    apply (get_red_news_hit later net g' Hok'). rewrite Hfresh.
    now apply Z.ltb_lt.
  - intros later net Hge. rewrite get_red_news_stale; [|exact Hok'|].
    + apply (refresh_outcome from_ical later net g').
    + rewrite Hfresh. now apply Z.ltb_ge.
Qed.

Lemma cache_fresh_later : forall now later g,
  cache_fresh now g = false -> now <= later -> cache_fresh later g = false.
Proof.
  intros now later g Hstale Hle. unfold cache_fresh in *.
  destruct (LAST_FETCH g) as [lf|]; [|reflexivity].
  apply Z.ltb_ge in Hstale. apply Z.ltb_ge. lia.
Qed.

(** X5: a failed refresh is not remembered: when a refresh was due and
    failed, every later call issues the request again, however soon it
    comes and whatever the failure was (a 429 too). *)
Theorem failed_refresh_is_retried :
  forall now later net net_later g,
    globals_ok g ->
    cache_fresh now g = false ->
    failed_refresh from_ical net = true ->
    now <= later ->
    http_requests (trace (get_red_news from_ical now net g))
    = [HttpGet FOREX_ICS 10 "ForexNewsBot/1.0"]
    /\ http_requests
         (trace (get_red_news from_ical later net_later
                   (globals_after (get_red_news from_ical now net g))))
       = [HttpGet FOREX_ICS 10 "ForexNewsBot/1.0"].
Proof.
  intros now later net net_later g Hok Hstale Hf Hle.
  rewrite (get_red_news_stale now net g Hok Hstale).
  destruct (refresh_outcome from_ical now net g) as [Hreq [_ Hcases]].
  cbv zeta in Hreq, Hcases. split; [exact Hreq|].
  destruct Hcases as [[_ [_ Hg]] | [sc [tx [cal [_ [Hnf _]]]]]]; [|congruence].
  rewrite Hg.
  rewrite (get_red_news_stale later net_later g Hok
             (cache_fresh_later now later g Hstale Hle)).
  apply (refresh_outcome from_ical later net_later g).
Qed.

End MoreCacheProperties.

(** ** The invariant of the cache over any run of the handlers *)

Section ReachableGlobals.

Variable from_ical : string -> exception + component.
Variable strftime_display : datetime -> string.

Lemma normalize_returns_future : forall now cal events,
  normalize (datetime_now UTC now) cal = Return events ->
  Forall (fun ev : event => now < instant (fst ev)) events.
Proof.
  intros now cal events Hn.
  destruct (normalize_cases now cal) as [[_ Hr] | [_ Hr]]; rewrite Hr in Hn;
    [|discriminate].
  injection Hn as <-. apply Forall_forall. intros ev Hin.
  apply in_flat_map in Hin. destruct Hin as [c [_ Hin]].
  apply in_contribution in Hin. destruct Hin as [start [_ [_ [Hlt ->]]]].
  exact Hlt.
Qed.

Lemma get_red_news_keeps_future : forall now net g,
  globals_ok g -> cache_future g ->
  cache_future (globals_after (get_red_news from_ical now net g)).
Proof.
  intros now net g Hok Hfut. rewrite get_red_news_run by assumption.
  assert (Hrefresh :
    cache_future (globals_after (refresh from_ical (datetime_now UTC now) net g))).
  { destruct (refresh_outcome from_ical now net g) as [_ [_ Hcases]].
    cbv zeta in Hcases.
    destruct Hcases as [[_ [_ Hg]] | [sc [text [cal [_ [_ [_ Hcases]]]]]]].
    - now rewrite Hg.
    - destruct Hcases as [[events [Hn [_ Hg]]] | [_ [_ Hg]]]; rewrite Hg;
        [|assumption].
      unfold cache_future. cbn [LAST_FETCH CACHED_EVENTS]. rewrite instant_now.
      exact (normalize_returns_future now cal events Hn). }
  destruct (cache_fresh now g); [|exact Hrefresh].
  destruct (LAST_FETCH g) eqn:E; [|exact Hrefresh]. exact Hfut.
Qed.

(** A handler leaves the globals or leaves what [get_red_news] leaves. *)
Lemma after_call_globals : forall c g,
  globals_ok g ->
  after_call from_ical strftime_display g c = g
  \/ exists now net,
       after_call from_ical strftime_display g c
       = globals_after (get_red_news from_ical now net g).
Proof.
  intros [[channel|] now now_cache net | client_user msg now net] g Hok;
    unfold after_call.
  - right. exists now_cache, net. rewrite check_news_run by assumption.
    now destruct (get_red_news from_ical now_cache net g) as [[[events | e] g1] t1].
  - now left.
  - unfold on_message.
    destruct (author msg =? client_user); [now left|].
    destruct (negb (channel_id msg =? CHANNEL_ID)); [now left|].
    destruct (PyStr.startswith (PyStr.lower (content msg)) "!nextnews"); [|now left].
    right. exists now, net. rewrite answer_nextnews_run.
    destruct (get_red_news from_ical now net g) as [[[[|ev rest] | e] g1] t1];
      try reflexivity.
    destruct (next_events (ev :: rest)) as [shown | e]; [|reflexivity].
    now destruct (existsb _ shown).
Qed.

Lemma after_call_keeps : forall c g,
  globals_ok g /\ cache_future g ->
  globals_ok (after_call from_ical strftime_display g c)
  /\ cache_future (after_call from_ical strftime_display g c).
Proof.
  intros c g [Hok Hfut].
  destruct (after_call_globals c g Hok) as [-> | [now [net ->]]]; [auto|].
  split.
  - apply (get_red_news_keeps_ok from_ical now net g Hok).
  - now apply get_red_news_keeps_future.
Qed.

(** X6: from the start of the process, after any sequence of ticks and
    messages, whatever the clock, the network and the channel lookup did:
    every datetime in the globals is aware, every cached event lies
    strictly after the instant of [LAST_FETCH], and nothing is cached as
    long as [LAST_FETCH] is [None]. *)
Theorem globals_invariant : forall calls,
  (forall last_fetch,
      LAST_FETCH (after_calls from_ical strftime_display calls initial_globals)
      = Some last_fetch ->
      (exists off, tzinfo last_fetch = Some off)
      /\ Forall (fun ev : event =>
                   (exists off, tzinfo (fst ev) = Some off)
                   /\ instant last_fetch < instant (fst ev))
           (CACHED_EVENTS (after_calls from_ical strftime_display calls
                             initial_globals)))
  /\ (LAST_FETCH (after_calls from_ical strftime_display calls initial_globals) = None ->
      CACHED_EVENTS (after_calls from_ical strftime_display calls initial_globals) = []).
Proof.
  intros calls.
  assert (Hinv : globals_ok (after_calls from_ical strftime_display calls initial_globals)
                 /\ cache_future
                      (after_calls from_ical strftime_display calls initial_globals)).
  { unfold after_calls.
    assert (Hstart : globals_ok initial_globals /\ cache_future initial_globals)
      by (split; [exact initial_globals_ok | reflexivity]).
    revert Hstart. generalize initial_globals.
    induction calls as [|c calls IH]; intros g Hg; [exact Hg|].
    cbn [fold_left]. apply IH. now apply after_call_keeps. }
  destruct Hinv as [[Hlf Hev] Hfut]. unfold cache_future in Hfut.
  assert (aware_some : forall dt, aware dt -> exists off, tzinfo dt = Some off).
  { intros [w [off|]] H; [exists off; reflexivity | now elim H]. }
  split.
  - intros lf E. rewrite E in Hfut. split; [apply aware_some, Hlf, E|].
    rewrite Forall_forall in *. intros ev Hin. split; [apply aware_some|]; auto.
  - intros E. now rewrite E in Hfut.
Qed.

End ReachableGlobals.

(** ** The period of the tick against the width of the window *)

Lemma sends_check_event : forall strftime_display channel now ev g,
  aware (fst ev) ->
  sends (trace (check_event strftime_display channel (datetime_now UTC now) ev g)) = []
  <-> in_alert_window (instant (fst ev) - now) = false.
Proof.
  intros strftime_display channel now ev g Haw.
  rewrite check_event_run by assumption. unfold trace, alert_effects. cbn [snd].
  destruct (in_alert_window (instant (fst ev) - now)); cbn; split;
    congruence.
Qed.

(** X7: two ticks that are a period (60 seconds) or more apart never both
    send the alert of the same event. *)
Theorem no_alert_twice_a_period_apart :
  forall strftime_display channel ev now1 now2 g1 g2,
    aware (fst ev) ->
    now1 + tick_period <= now2 ->
    sends (trace (check_event strftime_display channel (datetime_now UTC now1) ev g1))
    = []
    \/ sends (trace (check_event strftime_display channel (datetime_now UTC now2) ev g2))
       = [].
Proof.
  intros strftime_display channel ev now1 now2 g1 g2 Haw Hgap.
  rewrite !sends_check_event by assumption.
  destruct (in_alert_window (instant (fst ev) - now1)) eqn:H1; [|now left].
  destruct (in_alert_window (instant (fst ev) - now2)) eqn:H2; [|now right].
  apply in_alert_window_iff in H1, H2.
  unfold tick_period, LOOP_SECONDS in Hgap. lia.
Qed.

(** X8: run at the clock readings [now0 + k * 60 s], the body of the
    loop of line 140 sends the alert of an event that is more than nine
    minutes after [now0] (and can be converted to the display zone) for
    exactly one [k >= 0], and sends nothing for every other [k].  Whether
    a tick reaches the body for the event is not part of the statement. *)
Theorem exactly_one_tick_alerts :
  forall strftime_display channel ev now0,
    aware (fst ev) ->
    astimezone_display_overflows (fst ev) = false ->
    9 * 60 * 1000000 < instant (fst ev) - now0 ->
    exists k,
      0 <= k
      /\ (forall g,
            sends (trace (check_event strftime_display channel
                            (datetime_now UTC (now0 + k * tick_period)) ev g))
            = [(channel, alert_message (snd ev) (strftime_display (fst ev)))])
      /\ (forall k' g,
            k' <> k ->
            sends (trace (check_event strftime_display channel
                            (datetime_now UTC (now0 + k' * tick_period)) ev g))
            = []).
Proof.
  intros strftime_display channel ev now0 Haw _ Hahead.
  set (d := instant (fst ev) - now0) in *.
  exists ((d - 540000001) / 60000000).
  pose proof (Z.div_mod (d - 540000001) 60000000 ltac:(lia)) as Hdm.
  pose proof (Z.mod_pos_bound (d - 540000001) 60000000 ltac:(lia)) as Hmod.
  assert (Hk : 0 <= (d - 540000001) / 60000000) by (apply Z.div_pos; lia).
  split; [exact Hk|]. split.
  - intros g. rewrite check_event_run by assumption.
    unfold trace, alert_effects. cbn [snd].
    assert (Hw : in_alert_window
                   (instant (fst ev)
                    - (now0 + (d - 540000001) / 60000000 * tick_period)) = true).
    { apply in_alert_window_iff. unfold tick_period, LOOP_SECONDS. subst d. lia. }
    now rewrite Hw.
  - intros k' g Hneq. apply sends_check_event; [assumption|].
    destruct (in_alert_window (instant (fst ev) - (now0 + k' * tick_period))) eqn:Hw;
      [|reflexivity].
    apply in_alert_window_iff in Hw. unfold tick_period, LOOP_SECONDS in Hw.
    subst d. exfalso. apply Hneq. lia.
Qed.

(** ** The messages the handler leaves alone *)

Section MoreCommandProperties.

Variable from_ical : string -> exception + component.
Variable strftime_display : datetime -> string.

Lemma get_red_news_trace_not_empty : forall now net g,
  globals_ok g -> trace (get_red_news from_ical now net g) <> [].
Proof.
  intros now net g Hok. rewrite get_red_news_run by assumption.
  assert (Hrefresh : trace (refresh from_ical (datetime_now UTC now) net g) <> []).
  { destruct (refresh_outcome from_ical now net g) as [Hreq _]. cbv zeta in Hreq.
    intros E. rewrite E in Hreq. discriminate Hreq. }
  destruct (cache_fresh now g); [|exact Hrefresh].
  destruct (LAST_FETCH g); [discriminate | exact Hrefresh].
Qed.

(** X9: on reachable globals the handler does nothing at all (no line, no
    request, no message, globals untouched) exactly for the bot's own
    messages, for messages of other channels and for contents whose
    lower-cased text does not start with [!nextnews]; the author is
    tested first, so the bot never answers itself. *)
Theorem on_message_ignores : forall client_user msg now net g,
  globals_ok g ->
  (trace (on_message from_ical strftime_display client_user msg now net g) = []
   <-> author msg = client_user
       \/ channel_id msg <> CHANNEL_ID
       \/ PyStr.startswith (PyStr.lower (content msg)) "!nextnews" = false)
  /\ (author msg = client_user
      \/ channel_id msg <> CHANNEL_ID
      \/ PyStr.startswith (PyStr.lower (content msg)) "!nextnews" = false ->
      on_message from_ical strftime_display client_user msg now net g
      = (Return tt, g, [])).
Proof.
  intros client_user msg now net g Hok.
  assert (Hskip : author msg = client_user
            \/ channel_id msg <> CHANNEL_ID
            \/ PyStr.startswith (PyStr.lower (content msg)) "!nextnews" = false ->
            on_message from_ical strftime_display client_user msg now net g
            = (Return tt, g, [])).
  { unfold on_message. intros [Ha | [Hc | Hp]].
    - apply Z.eqb_eq in Ha. now rewrite Ha.
    - apply Z.eqb_neq in Hc. rewrite Hc. cbn [negb].
      now destruct (author msg =? client_user).
    - rewrite Hp. destruct (author msg =? client_user); [reflexivity|].
      now destruct (negb (channel_id msg =? CHANNEL_ID)). }
  split; [|exact Hskip]. split; [|intros H; now rewrite (Hskip H)].
  intros Hempty.
  destruct (Z.eqb_spec (author msg) client_user) as [Ha | Ha]; [now left|].
  destruct (Z.eqb_spec (channel_id msg) CHANNEL_ID) as [Hc | Hc]; [|now right; left].
  destruct (PyStr.startswith (PyStr.lower (content msg)) "!nextnews") eqn:Hp;
    [|now right; right].
  exfalso. revert Hempty. unfold on_message.
  apply Z.eqb_neq in Ha. apply Z.eqb_eq in Hc. rewrite Ha, Hc, Hp. cbn [negb].
  rewrite answer_nextnews_run.
  pose proof (get_red_news_trace_not_empty now net g Hok) as Hne.
  destruct (get_red_news from_ical now net g) as [[[[|ev rest] | e] g1] t1];
    unfold trace in *; cbn [snd] in *.
  - intros E. apply app_eq_nil in E. destruct E as [_ E]. discriminate E.
  - assert (Hnil : forall t, t1 ++ t <> []).
    { intros t E. apply app_eq_nil in E. destruct E as [E _]. contradiction. }
    destruct (next_events (ev :: rest)) as [shown | e]; cbn [snd];
      [|apply Hnil].
    destruct (existsb _ shown); cbn [snd]; apply Hnil.
  - exact Hne.
Qed.

End MoreCommandProperties.

(** ** The events the reply shows *)

Lemma StronglySorted_app_le : forall (l1 l2 : list event),
  StronglySorted time_le (l1 ++ l2) ->
  forall a b, In a l1 -> In b l2 -> time_le a b.
Proof.
  induction l1 as [|x l1 IH]; intros l2 Hs a b Ha Hb; [destruct Ha|].
  cbn [app] in Hs. inversion Hs as [|? ? Hs' Hall]; subst.
  destruct Ha as [<- | Ha].
  - rewrite Forall_forall in Hall. apply Hall, in_or_app. now right.
  - now apply (IH l2 Hs').
Qed.

(** X10: on aware events, when no tzinfo object gives two of them two
    offsets, line 183 takes three of them, or all when there are fewer,
    and they are the earliest: the taken events are in ascending order of
    their instants and no event left out is earlier than one taken. *)
Theorem next_events_are_the_earliest : forall events,
  Forall (fun ev : event => aware (fst ev)) events ->
  consistent_zones events ->
  exists shown left_out,
    next_events events = Return shown
    /\ Permutation events (shown ++ left_out)
    /\ List.length shown = Nat.min 3 (List.length events)
    /\ StronglySorted time_le shown
    /\ (forall a b, In a shown -> In b left_out -> time_le a b).
Proof.
  intros events Haw Hz.
  destruct (sorted_by_time_ok events Haw Hz)
    as [in_order [Hsort [Hperm [Hsorted _]]]].
  exists (firstn 3 in_order), (skipn 3 in_order).
  rewrite <- (firstn_skipn 3 in_order) in Hsorted.
  split; [unfold next_events; now rewrite Hsort|].
  split; [now rewrite firstn_skipn|].
  split; [rewrite length_firstn; now rewrite (Permutation_length Hperm)|].
  split.
  - clear - Hsorted. revert Hsorted.
    generalize (firstn 3 in_order) (skipn 3 in_order).
    induction l as [|x l IH]; intros l2 Hs; [constructor|].
    cbn [app] in Hs. inversion Hs as [|? ? Hs' Hall]; subst.
    constructor; [now apply (IH l2)|].
    apply Forall_app in Hall. apply Hall.
  - now apply StronglySorted_app_le.
Qed.

(** ** Startup *)

Lemma starts_app : forall t1 t2, starts (t1 ++ t2) = (starts t1 + starts t2)%nat.
Proof. intros. unfold starts. now rewrite filter_app, length_app. Qed.

Lemma on_ready_run : forall TOKEN client_user is_running,
  fst (on_ready TOKEN client_user is_running) = true
  /\ starts (snd (on_ready TOKEN client_user is_running))
     = if is_running then 0%nat else 1%nat.
Proof.
  intros [token|] client_user [|]; split; reflexivity.
Qed.

(** X11: however often [on_ready] is called, the task [check_news] is
    started once if it was not running and never if it was, with or
    without a token; after the first call it runs. *)
Theorem on_ready_starts_the_task_once : forall TOKEN client_user n is_running,
  fst (on_ready_times TOKEN client_user n is_running)
  = (is_running || negb (Nat.eqb n 0))
  /\ starts (snd (on_ready_times TOKEN client_user n is_running))
     = if is_running || Nat.eqb n 0 then 0%nat else 1%nat.
Proof.
  intros TOKEN client_user n. induction n as [|n IH]; intros is_running.
  - cbn. rewrite orb_false_r, orb_true_r. auto.
  - cbn [on_ready_times].
    destruct (on_ready_run TOKEN client_user is_running) as [Hrun Hstart].
    destruct (on_ready TOKEN client_user is_running) as [running t1].
    cbn [fst snd] in Hrun, Hstart. subst running.
    specialize (IH true). destruct (on_ready_times TOKEN client_user n true)
      as [running' t2].
    cbn [fst snd] in *. destruct IH as [-> Hs2]. rewrite starts_app, Hstart, Hs2.
    cbn. rewrite orb_false_r, orb_true_r. split; [reflexivity|].
    destruct is_running; reflexivity.
Qed.

(** ** A tick on which the refresh is due *)

Section RefreshingTick.

Variable from_ical : string -> exception + component.
Variable strftime_display : datetime -> string.

Lemma tick_sends : forall channel tick_now now net g events,
  globals_ok g ->
  outcome (get_red_news from_ical now net g) = Return events ->
  sends (trace (check_news from_ical strftime_display (Some channel)
                  tick_now now net g))
  = map (fun ev : event =>
           (channel, alert_message (snd ev) (strftime_display (fst ev))))
      (filter (fun ev : event => in_alert_window (instant (fst ev) - tick_now))
         events).
Proof.
  intros channel tick_now now net g events Hok Hret.
  rewrite check_news_run by assumption.
  pose proof (get_red_news_sends from_ical now net g Hok) as Hs.
  destruct (get_red_news from_ical now net g) as [[[events' | e] g1] t1];
    unfold outcome, trace in *; cbn [fst snd] in *; [|discriminate].
  injection Hret as ->. now rewrite sends_app, Hs, sends_alert_effects.
Qed.

(** X12: a tick on which the refresh is due alerts from what the refresh
    leaves.  When the refresh fails, the events of the old cache that lie
    in the window are still alerted; when it succeeds, the events just
    fetched are the ones tested, in this very tick (both for events that
    can be converted to the display zone).  When the conversion of one of
    the first five fetched events raises in the log, the tick raises the
    OverflowError and sends nothing, with the cache already replaced. *)
Theorem tick_alerts_after_refresh : forall channel tick_now now net g,
  globals_ok g ->
  cache_fresh now g = false ->
  (failed_refresh from_ical net = true ->
   Forall (fun ev : event => astimezone_display_overflows (fst ev) = false)
     (CACHED_EVENTS g) ->
   sends (trace (check_news from_ical strftime_display (Some channel)
                   tick_now now net g))
   = map (fun ev : event =>
            (channel, alert_message (snd ev) (strftime_display (fst ev))))
       (filter (fun ev : event =>
                  (9 * 60 * 1000000 <? instant (fst ev) - tick_now)
                  && (instant (fst ev) - tick_now <=? 10 * 60 * 1000000))
          (CACHED_EVENTS g)))
  /\ (forall status_code text cal events,
        net = Response status_code text ->
        failed_refresh from_ical net = false ->
        from_ical text = inr cal ->
        normalize (datetime_now UTC now) cal = Return events ->
        (Forall (fun ev : event => astimezone_display_overflows (fst ev) = false)
           events ->
         sends (trace (check_news from_ical strftime_display (Some channel)
                         tick_now now net g))
         = map (fun ev : event =>
                  (channel, alert_message (snd ev) (strftime_display (fst ev))))
             (filter (fun ev : event =>
                        (9 * 60 * 1000000 <? instant (fst ev) - tick_now)
                        && (instant (fst ev) - tick_now <=? 10 * 60 * 1000000))
                events))
        /\ (existsb (fun ev : event => astimezone_display_overflows (fst ev))
              (firstn 5 events) = true ->
            outcome (check_news from_ical strftime_display (Some channel)
                       tick_now now net g) = Raise date_out_of_range
            /\ sends (trace (check_news from_ical strftime_display (Some channel)
                               tick_now now net g)) = []
            /\ CACHED_EVENTS
                 (globals_after (check_news from_ical strftime_display
                                   (Some channel) tick_now now net g))
               = events)).
Proof.
  intros channel tick_now now net g Hok Hstale. split.
  - intros Hf _.
    apply (tick_sends channel tick_now now net g (CACHED_EVENTS g) Hok).
    rewrite get_red_news_stale by assumption.
    destruct (refresh_failed from_ical (datetime_now UTC now) net g Hf) as [lines ->].
    reflexivity.
  - intros status_code text cal events -> Hf Hp Hn.
    pose proof (refresh_parsed from_ical (datetime_now UTC now) status_code text
                  cal g Hf Hp) as Hr.
    rewrite Hn in Hr. destruct Hr as [lines Hr]. split.
    + intros Hshow.
      assert (Hfive : existsb (fun ev : event => astimezone_display_overflows (fst ev))
                        (firstn 5 events) = false).
      { apply existsb_false_Forall, Forall_forall. intros ev Hin.
        rewrite Forall_forall in Hshow. apply Hshow.
        rewrite <- (firstn_skipn 5 events). apply in_or_app. now left. }
      apply (tick_sends channel tick_now now _ g events Hok).
      rewrite get_red_news_stale by assumption. now rewrite Hr, Hfive.
    + intros Hover. rewrite check_news_run by assumption.
      rewrite get_red_news_stale by assumption. rewrite Hr, Hover.
      unfold outcome, globals_after, trace. cbn [fst snd sends].
      now rewrite sends_log.
Qed.

End RefreshingTick.

(** * The further properties on the sample data *)

Lemma normalize_one_event_per_record_in_order_witness :
  normalize (datetime_now UTC 0) Sample.calendar
  = Return [ (Sample.at_utc (10 * Sample.minute), "NFP"%string);
             (Sample.at_utc (3 * Sample.hour), "CPI"%string);
             (Sample.at_utc 86400000000, "Holiday"%string) ]
  /\ Forall2
       (fun c ev =>
          exists start, DTSTART c = Some start
                        /\ ev = (event_time_of start, summary_of c))
       [Sample.nfp; Sample.cpi; Sample.holiday]
       [ (Sample.at_utc (10 * Sample.minute), "NFP"%string);
         (Sample.at_utc (3 * Sample.hour), "CPI"%string);
         (Sample.at_utc 86400000000, "Holiday"%string) ].
Proof.
  split; [reflexivity|].
  exact (normalize_one_event_per_record_in_order 0 Sample.calendar _ eq_refl).
Defined.

Lemma normalize_without_marked_events_witness :
  (forall c, In c (walk MoreSample.quiet_calendar) ->
             name c <> "VEVENT"%string
             \/ (PyStr.str_in "Impact: High" (description_of c) = false
                 /\ PyStr.str_in "High Impact Expected" (description_of c) = false))
  /\ normalize (datetime_now UTC 0) MoreSample.quiet_calendar = Return [].
Proof.
  assert (H : forall c, In c (walk MoreSample.quiet_calendar) ->
                name c <> "VEVENT"%string
                \/ (PyStr.str_in "Impact: High" (description_of c) = false
                    /\ PyStr.str_in "High Impact Expected" (description_of c) = false)).
  { intros c Hin. simpl in Hin.
    destruct Hin as [<- | [<- | [<- | [<- | []]]]].
    - left. discriminate.
    - left. discriminate.
    - right. split; reflexivity.
    - right. split; reflexivity. }
  split; [exact H|]. exact (normalize_without_marked_events 0 _ H).
Defined.

Lemma broken_record_aborts_refresh_witness :
  globals_ok Sample.cache
  /\ cache_fresh (20 * Sample.minute) Sample.cache = false
  /\ In MoreSample.broken_event (walk MoreSample.broken_calendar)
  /\ get_red_news MoreSample.from_ical_broken (20 * Sample.minute)
       (Response 200 "BEGIN:VCALENDAR") Sample.cache
     = (Raise none_has_no_dt, Sample.cache,
        [Print DebugRefreshing; HttpGet FOREX_ICS 10 "ForexNewsBot/1.0"]).
Proof.
  assert (Hin : In MoreSample.broken_event (walk MoreSample.broken_calendar))
    by (simpl; auto).
  split; [exact sample_cache_ok|]. split; [reflexivity|]. split; [exact Hin|].
  exact (proj1 (broken_record_aborts_refresh MoreSample.from_ical_broken
                  Sample.strftime_display (20 * Sample.minute) 200 "BEGIN:VCALENDAR"
                  MoreSample.broken_calendar MoreSample.broken_event Sample.cache
                  sample_cache_ok eq_refl eq_refl eq_refl Hin eq_refl eq_refl)).
Defined.

Lemma refresh_then_hit_witness :
  globals_ok Sample.cache
  /\ cache_fresh (20 * Sample.minute) Sample.cache = false
  /\ normalize (datetime_now UTC (20 * Sample.minute)) Sample.calendar
     = Return [ (Sample.at_utc (3 * Sample.hour), "CPI"%string);
                (Sample.at_utc 86400000000, "Holiday"%string) ]
  /\ http_requests
       (trace (get_red_news Sample.from_ical (34 * Sample.minute) Sample.timed_out
                 (globals_after
                    (get_red_news Sample.from_ical (20 * Sample.minute)
                       (Response 200 "BEGIN:VCALENDAR") Sample.cache)))) = [].
Proof.
  split; [exact sample_cache_ok|]. split; [reflexivity|]. split; [reflexivity|].
  destruct (refresh_then_hit Sample.from_ical (20 * Sample.minute) 200
              "BEGIN:VCALENDAR" Sample.calendar _ Sample.cache
              sample_cache_ok eq_refl eq_refl eq_refl eq_refl) as [_ [_ [Hhit _]]].
  apply (Hhit (34 * Sample.minute) Sample.timed_out). vm_compute. reflexivity.
Defined.

Lemma failed_refresh_is_retried_witness :
  globals_ok Sample.cache
  /\ cache_fresh (20 * Sample.minute) Sample.cache = false
  /\ failed_refresh Sample.from_ical (Response 429 "") = true
  /\ http_requests
       (trace (get_red_news Sample.from_ical (21 * Sample.minute) (Response 429 "")
                 (globals_after
                    (get_red_news Sample.from_ical (20 * Sample.minute)
                       (Response 429 "") Sample.cache))))
     = [HttpGet FOREX_ICS 10 "ForexNewsBot/1.0"].
Proof.
  split; [exact sample_cache_ok|]. split; [reflexivity|]. split; [reflexivity|].
  apply (failed_refresh_is_retried Sample.from_ical (20 * Sample.minute)
           (21 * Sample.minute) (Response 429 "") (Response 429 "") Sample.cache
           sample_cache_ok eq_refl eq_refl).
  vm_compute. discriminate.
Defined.

Lemma globals_invariant_witness :
  LAST_FETCH (after_calls Sample.from_ical Sample.strftime_display
                [MoreSample.first_tick] initial_globals)
  = Some (datetime_now UTC 0)
  /\ Forall (fun ev : event =>
               (exists off, tzinfo (fst ev) = Some off)
               /\ instant (datetime_now UTC 0) < instant (fst ev))
       (CACHED_EVENTS (after_calls Sample.from_ical Sample.strftime_display
                         [MoreSample.first_tick] initial_globals)).
Proof.
  split; [reflexivity|].
  exact (proj2 (proj1 (globals_invariant Sample.from_ical Sample.strftime_display
                         [MoreSample.first_tick])
                  (datetime_now UTC 0) eq_refl)).
Defined.

Lemma no_alert_twice_a_period_apart_witness :
  aware (fst MoreSample.ev_soon)
  /\ 20 * Sample.minute + tick_period <= 21 * Sample.minute
  /\ (sends (trace (check_event Sample.strftime_display CHANNEL_ID
                      (datetime_now UTC (20 * Sample.minute)) MoreSample.ev_soon
                      initial_globals)) = []
      \/ sends (trace (check_event Sample.strftime_display CHANNEL_ID
                         (datetime_now UTC (21 * Sample.minute)) MoreSample.ev_soon
                         initial_globals)) = []).
Proof.
  assert (Haw : aware (fst MoreSample.ev_soon)) by (unfold aware; simpl; discriminate).
  assert (Hgap : 20 * Sample.minute + tick_period <= 21 * Sample.minute)
    by (vm_compute; discriminate).
  split; [exact Haw|]. split; [exact Hgap|].
  exact (no_alert_twice_a_period_apart Sample.strftime_display CHANNEL_ID
           MoreSample.ev_soon (20 * Sample.minute) (21 * Sample.minute)
           initial_globals initial_globals Haw Hgap).
Defined.

Lemma exactly_one_tick_alerts_witness :
  aware (fst MoreSample.ev_soon)
  /\ astimezone_display_overflows (fst MoreSample.ev_soon) = false
  /\ 9 * 60 * 1000000 < instant (fst MoreSample.ev_soon) - 0
  /\ exists k,
       0 <= k
       /\ sends (trace (check_event Sample.strftime_display CHANNEL_ID
                          (datetime_now UTC (0 + k * tick_period)) MoreSample.ev_soon
                          initial_globals))
          = [(CHANNEL_ID, alert_message "Soon" "2025-01-01 05:30 IST")].
Proof.
  assert (Haw : aware (fst MoreSample.ev_soon)) by (unfold aware; simpl; discriminate).
  assert (Hahead : 9 * 60 * 1000000 < instant (fst MoreSample.ev_soon) - 0)
    by (vm_compute; reflexivity).
  split; [exact Haw|]. split; [reflexivity|]. split; [exact Hahead|].
  destruct (exactly_one_tick_alerts Sample.strftime_display CHANNEL_ID
              MoreSample.ev_soon 0 Haw eq_refl Hahead) as [k [Hk [Hfire _]]].
  exists k. split; [exact Hk | exact (Hfire initial_globals)].
Defined.

Lemma on_message_ignores_witness :
  globals_ok Sample.cache
  /\ PyStr.startswith (PyStr.lower (content MoreSample.chatter)) "!nextnews" = false
  /\ on_message Sample.from_ical Sample.strftime_display 1 MoreSample.chatter 0
       Sample.timed_out Sample.cache
     = (Return tt, Sample.cache, []).
Proof.
  split; [exact sample_cache_ok|]. split; [reflexivity|].
  apply (proj2 (on_message_ignores Sample.from_ical Sample.strftime_display 1
                  MoreSample.chatter 0 Sample.timed_out Sample.cache sample_cache_ok)).
  right. right. reflexivity.
Defined.

Lemma next_events_are_the_earliest_witness :
  Forall (fun ev : event => aware (fst ev))
    [Sample.ev_3h; MoreSample.ev_soon; Sample.ev_2h; Sample.ev_1h]
  /\ consistent_zones [Sample.ev_3h; MoreSample.ev_soon; Sample.ev_2h; Sample.ev_1h]
  /\ exists shown left_out,
       next_events [Sample.ev_3h; MoreSample.ev_soon; Sample.ev_2h; Sample.ev_1h]
       = Return shown
       /\ List.length shown = 3%nat
       /\ (forall a b, In a shown -> In b left_out -> time_le a b).
Proof.
  assert (Haw : Forall (fun ev : event => aware (fst ev))
                  [Sample.ev_3h; MoreSample.ev_soon; Sample.ev_2h; Sample.ev_1h])
    by (repeat constructor; unfold aware; simpl; discriminate).
  assert (Hz : consistent_zones
                 [Sample.ev_3h; MoreSample.ev_soon; Sample.ev_2h; Sample.ev_1h])
    by sample_zones.
  split; [exact Haw|]. split; [exact Hz|].
  destruct (next_events_are_the_earliest _ Haw Hz)
    as [shown [left_out [Hnext [_ [Hlen [_ Hle]]]]]].
  exists shown, left_out. split; [exact Hnext|]. split; [exact Hlen | exact Hle].
Defined.

Lemma tick_alerts_after_refresh_witness :
  globals_ok MoreSample.stale_cache
  /\ cache_fresh (20 * Sample.minute) MoreSample.stale_cache = false
  /\ failed_refresh Sample.from_ical Sample.timed_out = true
  /\ Forall (fun ev : event => astimezone_display_overflows (fst ev) = false)
       (CACHED_EVENTS MoreSample.stale_cache)
  /\ sends (trace (check_news Sample.from_ical Sample.strftime_display
                     (Some CHANNEL_ID) (20 * Sample.minute) (20 * Sample.minute)
                     Sample.timed_out MoreSample.stale_cache))
     = [(CHANNEL_ID, alert_message "Soon" "2025-01-01 05:30 IST")].
Proof.
  assert (Hok : globals_ok MoreSample.stale_cache) by sample_globals_ok.
  assert (Hshow : Forall (fun ev : event =>
                            astimezone_display_overflows (fst ev) = false)
                    (CACHED_EVENTS MoreSample.stale_cache))
    by (repeat constructor).
  split; [exact Hok|]. split; [reflexivity|]. split; [reflexivity|].
  split; [exact Hshow|].
  exact (proj1 (tick_alerts_after_refresh Sample.from_ical Sample.strftime_display
                  CHANNEL_ID (20 * Sample.minute) (20 * Sample.minute)
                  Sample.timed_out MoreSample.stale_cache Hok eq_refl)
           eq_refl Hshow).
Defined.
